(** * Intrinio balance-sheet provider: query, extraction, transformation

    A shallow embedding of
    [openbb_platform/providers/intrinio/openbb_intrinio/models/balance_sheet.py]:
    the query parameters and their validators, the record class with its
    alias table and its [replace_zero] validator, and the three stages of the
    fetcher ([transform_query], [aextract_data], [transform_data]).

    Python values are an inductive type, exceptions are an error result,
    the working dictionary of [transform_data] is a [gmap] together with
    the order of its keys, and the extraction stage, which assigns to the
    query object, warns and issues requests, runs in a state-and-error
    monad over those three things. What the base classes and the
    validation library do, where the module leaves it to them, is modelled
    or taken as a parameter, and marked so. *)

From Stdlib Require Import ZArith String Ascii List Lia.
From Stdlib Require Import Floats.SpecFloat.
From stdpp Require Import base option list gmap strings pretty.

Local Open Scope string_scope.
Local Open Scope list_scope.
Local Open Scope Z_scope.

(* ===================================================================== *)
(** ** Python values, exceptions and the few builtins the module uses    *)
(* ===================================================================== *)

Module Py.

(** A value as [json.loads] produces it. A float is an IEEE 754 binary64
    number in the specification format of the standard library. *)
#[warnings="-register-all"]
Inductive val : Type :=
| None_
| Bool (b : bool)
| Int (z : Z)
| Float (f : spec_float)
| Str (s : string)
| List (l : list val)
| Dict (d : list (string * val)).

Inductive exn : Type :=
| KeyError | TypeError | ValueError | OverflowError
| AttributeError | ValidationError | RequestError.

(** The outcome of a call: a value, or a raised exception. *)
Inductive result (A : Type) : Type :=
| Ok (a : A)
| Raise (e : exn).
Arguments Ok {A} a.
Arguments Raise {A} e.

#[export] Instance result_ret : MRet result := fun _ a => Ok a.
#[export] Instance result_bind : MBind result := fun _ _ k r =>
  match r with Ok a => k a | Raise e => Raise e end.
#[export] Instance result_fmap : FMap result := fun _ _ g r =>
  match r with Ok a => Ok (g a) | Raise e => Raise e end.

(** [for x in l] with a body that may raise: left to right, stop at the
    first exception. *)
Fixpoint for_each {A B : Type} (body : A -> result B) (l : list A)
  : result (list B) :=
  match l with
  | [] => Ok []
  | x :: rest =>
      y ← body x;
      ys ← for_each body rest;
      Ok (y :: ys)
  end.

(** binary64 *)
Definition prec : Z := 53.
Definition emax : Z := 1024.

(** What the module needs of the interpreter and cannot be read off the
    source: parsing a string as a float ([float("1e3")]; [None] is
    [ValueError]) and printing a float or a container inside an
    f-string. *)
Class Runtime : Type := {
  float_of_str : string -> option spec_float;
  str_of_float : spec_float -> string;
  str_of_container : val -> string;
}.

(** [bool(v)] *)
Definition truthy (v : val) : bool :=
  match v with
  | None_ => false
  | Bool b => b
  | Int z => negb (z =? 0)
  | Float (S754_zero _) => false
  | Float _ => true
  | Str s => negb (String.eqb s "")
  | List l => match l with [] => false | _ => true end
  | Dict d => match d with [] => false | _ => true end
  end.

(** [v == 0]: only numbers compare equal to zero, [False] among them;
    a NaN equals nothing. *)
Definition eq_zero (v : val) : bool :=
  match v with
  | Bool b => negb b
  | Int z => z =? 0
  | Float (S754_zero _) => true
  | _ => false
  end.

(** [v != 0] *)
Definition ne_zero (v : val) : bool := negb (eq_zero v).

(** [float(z)] on an int: the nearest binary64, ties to even;
    [OverflowError] when that is out of range. *)
Definition int_to_float (z : Z) : result spec_float :=
  match binary_normalize prec emax z 0 false with
  | S754_infinity _ => Raise OverflowError
  | f => Ok f
  end.

(** [float(v)] *)
Definition float `{Runtime} (v : val) : result spec_float :=
  match v with
  | Bool b => int_to_float (if b then 1 else 0)
  | Int z => int_to_float z
  | Float f => Ok f
  | Str s => match float_of_str s with
             | Some f => Ok f
             | None => Raise ValueError
             end
  | None_ | List _ | Dict _ => Raise TypeError
  end.

(** [str(v)], as an f-string field renders [v]. *)
Definition str `{Runtime} (v : val) : string :=
  match v with
  | None_ => "None"
  | Bool true => "True"
  | Bool false => "False"
  | Int z => pretty z
  | Float f => str_of_float f
  | Str s => s
  | List _ | Dict _ => str_of_container v
  end.

(** [d[k]] on a parsed JSON object: the entry, [KeyError] when absent,
    [TypeError] when [d] cannot be indexed by a string. *)
Fixpoint assoc (k : string) (d : list (string * val)) : option val :=
  match d with
  | [] => None
  | (k', v) :: rest => if String.eqb k k' then Some v else assoc k rest
  end.

Definition getitem (d : val) (k : string) : result val :=
  match d with
  | Dict entries =>
      match assoc k entries with
      | Some v => Ok v
      | None => Raise KeyError
      end
  | _ => Raise TypeError
  end.

(** [d.get(k, default)]; only a dict has the method. *)
Definition get (d : val) (k : string) (default : val) : result val :=
  match d with
  | Dict entries => Ok (match assoc k entries with
                        | Some v => v
                        | None => default
                        end)
  | _ => Raise AttributeError
  end.

(** [for item in v]: the items of a list, the keys of a dict, the
    characters of a string; anything else is not iterable. *)
Fixpoint chars (s : string) : list val :=
  match s with
  | EmptyString => []
  | String c rest => Str (String c EmptyString) :: chars rest
  end.

Definition iter (v : val) : result (list val) :=
  match v with
  | List l => Ok l
  | Dict d => Ok (map (fun kv => Str (fst kv)) d)
  | Str s => Ok (chars s)
  | _ => Raise TypeError
  end.

(** [l[:n]] *)
Definition slice_to {A : Type} (n : Z) (l : list A) : list A :=
  if 0 <=? n then take (Z.to_nat n) l
  else take (Z.to_nat (Z.of_nat (length l) + n)) l.

(** [s.replace(old, new)] for a one-character [old]. *)
Fixpoint replace (old : ascii) (new : string) (s : string) : string :=
  match s with
  | EmptyString => EmptyString
  | String c rest =>
      if Ascii.eqb c old then new +:+ replace old new rest
      else String c (replace old new rest)
  end.

End Py.

Import Py.

(* ===================================================================== *)
(** ** IntrinioBalanceSheetQueryParams                                   *)
(* ===================================================================== *)

(** The query object. [period] and [fiscal_year] are declared in the class;
    [symbol] and [limit] come from the base class. *)
Record QueryParams : Type := {
  symbol : string;
  period : string;
  fiscal_year : option Z;
  limit : Z;
}.

(** The keyword arguments of the constructor. [kw_period] is any value, or
    absent: the class checks it. *)
Record Params : Type := {
  kw_symbol : string;
  kw_period : option val;
  kw_fiscal_year : option Z;
  kw_limit : Z;
}.

(** [v = "FY" if v == "annual" else "QTR"] *)
Definition validate_period (v : string) : string :=
  if String.eqb v "annual" then "FY" else "QTR".

(** [v.replace("-", ".")] *)
Definition handle_symbol (v : string) : string :=
  replace "-"%char "." v.

(** Modelled from the spec: the base query class, which declares [symbol],
    is not among the sources; the spec has the symbol of a query a string.
    What the base class does to the symbol before [handle_symbol] sees it
    (the validator runs [mode="after"], on what the validation of the base
    class produced) is a parameter: a function on strings that leaves alone
    what it has once produced, also after the hyphens are replaced.
    Upper-casing is such a function. *)
Class BaseQuery : Type := {
  base_symbol : string -> string;
  base_symbol_settled : forall s,
    base_symbol (handle_symbol (base_symbol s))
    = handle_symbol (base_symbol s);
}.

(** [period: Literal["annual", "quarter"] = Field(default="annual")]:
    the check of the annotation runs first, the validator
    ([mode="after"]) on what passed it. A default is taken as it is:
    validators do not run on defaults. *)
Definition period_field (arg : option val) : result string :=
  match arg with
  | None => Ok "annual"
  | Some (Str s) =>
      if String.eqb s "annual" || String.eqb s "quarter"
      then Ok (validate_period s)
      else Raise ValidationError
  | Some _ => Raise ValidationError
  end.

(** Modelled from the spec: the declaration of [limit] is in the base query
    class, which is not among the sources; the spec gives it as a positive
    integer and has invalid inputs fail query construction. *)
Definition limit_field (arg : Z) : result Z :=
  if 0 <? arg then Ok arg else Raise ValidationError.

(** Modelled from the spec: the constructor
    [IntrinioBalanceSheetQueryParams], called on the keyword arguments. The
    fields are validated one by one, [symbol] and [limit] as the base class,
    which is not among the sources, has them; the symbol goes through the
    base class, then through [handle_symbol]. *)
Definition new_query {BQ : BaseQuery} (params : Params) : result QueryParams :=
  p ← period_field (kw_period params);
  n ← limit_field (kw_limit params);
  Ok {| symbol := handle_symbol (base_symbol (kw_symbol params));
        period := p;
        fiscal_year := kw_fiscal_year params;
        limit := n |}.

(* ===================================================================== *)
(** ** IntrinioBalanceSheetData                                          *)
(* ===================================================================== *)

(** Standardized field name, then vendor tag, as the class lists them. *)
Definition __alias_dict__ : list (string * string) := [
  ("cash_and_cash_equivalents",
   "cashandequivalents");
  ("restricted_cash",
   "restrictedcash");
  ("short_term_investments",
   "shortterminvestments");
  ("federal_funds_sold",
   "fedfundssold");
  ("note_and_lease_receivable",
   "notereceivable");
  ("interest_bearing_deposits_at_other_banks",
   "interestbearingdepositsatotherbanks");
  ("accounts_receivable",
   "accountsreceivable");
  ("time_deposits_placed_and_other_short_term_investments",
   "timedepositsplaced");
  ("inventories",
   "netinventory");
  ("trading_account_securities",
   "tradingaccountsecurities");
  ("prepaid_expenses",
   "prepaidexpenses");
  ("loans_and_leases",
   "loansandleases");
  ("allowance_for_loan_and_lease_losses",
   "allowanceforloanandleaselosses");
  ("current_deferred_refundable_income_taxes",
   "currentdeferredtaxassets");
  ("other_current_assets",
   "othercurrentassets");
  ("loans_and_leases_net_of_allowance",
   "netloansandleases");
  ("other_current_non_operating_assets",
   "othercurrentnonoperatingassets");
  ("loans_held_for_sale",
   "loansheldforsale");
  ("total_current_assets",
   "totalcurrentassets");
  ("accrued_investment_income",
   "accruedinvestmentincome");
  ("plant_property_equipment_gross",
   "grossppe");
  ("customer_and_other_receivables",
   "customerandotherreceivables");
  ("accumulated_depreciation",
   "accumulateddepreciation");
  ("premises_and_equipment_net",
   "netpremisesandequipment");
  ("plant_property_equipment_net",
   "netppe");
  ("mortgage_servicing_rights",
   "mortgageservicingrights");
  ("long_term_investments",
   "longterminvestments");
  ("unearned_premiums_asset",
   "unearnedpremiumsdebit");
  ("non_current_note_lease_receivables",
   "noncurrentnotereceivables");
  ("deferred_acquisition_cost",
   "deferredacquisitioncost");
  ("goodwill",
   "goodwill");
  ("separate_account_business_assets",
   "separateaccountbusinessassets");
  ("intangible_assets",
   "intangibleassets");
  ("non_current_deferred_refundable_income_taxes",
   "noncurrentdeferredtaxassets");
  ("employee_benefit_assets",
   "employeebenefitassets");
  ("other_assets",
   "otherassets");
  ("other_non_current_operating_assets",
   "othernoncurrentassets");
  ("total_assets",
   "totalassets");
  ("other_non_current_non_operating_assets",
   "othernoncurrentnonoperatingassets");
  ("non_interest_bearing_deposits",
   "noninterestbearingdeposits");
  ("interest_bearing_deposits",
   "interestbearingdeposits");
  ("total_non_current_assets",
   "totalnoncurrentassets");
  ("federal_funds_purchased_and_securities_sold",
   "fedfundspurchased");
  ("short_term_debt",
   "shorttermdebt");
  ("bankers_acceptance_out_standing",
   "bankersacceptances");
  ("accrued_interest_payable",
   "accruedinterestpayable");
  ("accounts_payable",
   "accountspayable");
  ("accrued_expenses",
   "accruedexpenses");
  ("other_short_term_payables",
   "othershorttermpayables");
  ("long_term_debt",
   "longtermdebt");
  ("customer_deposits",
   "customerdeposits");
  ("capital_lease_obligations",
   "capitalleaseobligations");
  ("dividends_payable",
   "dividendspayable");
  ("claims_and_claim_expense",
   "claimsandclaimexpenses");
  ("current_deferred_revenue",
   "currentdeferredrevenue");
  ("future_policy_benefits",
   "futurepolicybenefits");
  ("current_deferred_payable_income_tax_liabilities",
   "currentdeferredtaxliabilities");
  ("current_employee_benefit_liabilities",
   "currentemployeebenefitliabilities");
  ("unearned_premiums_liability",
   "unearnedpremiumscredit");
  ("other_taxes_payable",
   "othertaxespayable");
  ("policy_holder_funds",
   "policyholderfunds");
  ("other_current_liabilities",
   "othercurrentliabilities");
  ("participating_policy_holder_equity",
   "participatingpolicyholderequity");
  ("other_current_non_operating_liabilities",
   "othercurrentnonoperatingliabilities");
  ("separate_account_business_liabilities",
   "separateaccountbusinessliabilities");
  ("total_current_liabilities",
   "totalcurrentliabilities");
  ("other_long_term_liabilities",
   "otherlongtermliabilities");
  ("total_liabilities",
   "totalliabilities");
  ("commitments_contingencies",
   "commitmentsandcontingencies");
  ("asset_retirement_reserve_litigation_obligation",
   "assetretirementandlitigationobligation");
  ("redeemable_non_controlling_interest",
   "redeemablenoncontrollinginterest");
  ("non_current_deferred_revenue",
   "noncurrentdeferredrevenue");
  ("preferred_stock",
   "totalpreferredequity");
  ("common_stock",
   "commonequity");
  ("non_current_deferred_payable_income_tax_liabilities",
   "noncurrentdeferredtaxliabilities");
  ("non_current_employee_benefit_liabilities",
   "noncurrentemployeebenefitliabilities");
  ("retained_earnings",
   "retainedearnings");
  ("other_non_current_operating_liabilities",
   "othernoncurrentliabilities");
  ("treasury_stock",
   "treasurystock");
  ("accumulated_other_comprehensive_income",
   "aoci");
  ("other_non_current_non_operating_liabilities",
   "othernoncurrentnonoperatingliabilities");
  ("other_equity_adjustments",
   "otherequity");
  ("total_non_current_liabilities",
   "totalnoncurrentliabilities");
  ("total_common_equity",
   "totalcommonequity");
  ("total_preferred_common_equity",
   "totalequity");
  ("non_controlling_interest",
   "noncontrollinginterests");
  ("total_equity_non_controlling_interests",
   "totalequityandnoncontrollinginterests");
  ("total_liabilities_shareholders_equity",
   "totalliabilitiesandequity")
].

(** The fields the class declares, each [Optional[int]] with default
    [None]. *)
Definition declared_fields : list string := [
  "cash_and_cash_equivalents";
  "cash_and_due_from_banks";
  "restricted_cash";
  "short_term_investments";
  "federal_funds_sold";
  "accounts_receivable";
  "note_and_lease_receivable";
  "inventories";
  "customer_and_other_receivables";
  "interest_bearing_deposits_at_other_banks";
  "time_deposits_placed_and_other_short_term_investments";
  "trading_account_securities";
  "loans_and_leases";
  "allowance_for_loan_and_lease_losses";
  "current_deferred_refundable_income_taxes";
  "other_current_assets";
  "loans_and_leases_net_of_allowance";
  "accrued_investment_income";
  "other_current_non_operating_assets";
  "loans_held_for_sale";
  "prepaid_expenses";
  "total_current_assets";
  "plant_property_equipment_gross";
  "accumulated_depreciation";
  "premises_and_equipment_net";
  "plant_property_equipment_net";
  "long_term_investments";
  "mortgage_servicing_rights";
  "unearned_premiums_asset";
  "non_current_note_lease_receivables";
  "deferred_acquisition_cost";
  "goodwill";
  "separate_account_business_assets";
  "non_current_deferred_refundable_income_taxes";
  "intangible_assets";
  "employee_benefit_assets";
  "other_assets";
  "other_non_current_operating_assets";
  "other_non_current_non_operating_assets";
  "interest_bearing_deposits";
  "total_non_current_assets";
  "total_assets";
  "non_interest_bearing_deposits";
  "federal_funds_purchased_and_securities_sold";
  "bankers_acceptance_outstanding";
  "short_term_debt";
  "accounts_payable";
  "current_deferred_revenue";
  "current_deferred_payable_income_tax_liabilities";
  "accrued_interest_payable";
  "accrued_expenses";
  "other_short_term_payables";
  "customer_deposits";
  "dividends_payable";
  "claims_and_claim_expense";
  "future_policy_benefits";
  "current_employee_benefit_liabilities";
  "unearned_premiums_liability";
  "other_taxes_payable";
  "policy_holder_funds";
  "other_current_liabilities";
  "other_current_non_operating_liabilities";
  "separate_account_business_liabilities";
  "total_current_liabilities";
  "long_term_debt";
  "other_long_term_liabilities";
  "non_current_deferred_revenue";
  "non_current_deferred_payable_income_tax_liabilities";
  "non_current_employee_benefit_liabilities";
  "other_non_current_operating_liabilities";
  "other_non_current_non_operating_liabilities";
  "total_non_current_liabilities";
  "capital_lease_obligations";
  "asset_retirement_reserve_litigation_obligation";
  "total_liabilities";
  "commitments_contingencies";
  "redeemable_non_controlling_interest";
  "preferred_stock";
  "common_stock";
  "retained_earnings";
  "treasury_stock";
  "accumulated_other_comprehensive_income";
  "participating_policy_holder_equity";
  "other_equity_adjustments";
  "total_common_equity";
  "total_preferred_common_equity";
  "non_controlling_interest";
  "total_equity_non_controlling_interests";
  "total_liabilities_shareholders_equity"
].

(** Modelled from the spec: the base record class is not among the sources;
    the spec gives its fields as the period end date, the fiscal year and
    the fiscal period token. *)
Definition base_fields : list string :=
  ["period_ending"; "fiscal_year"; "fiscal_period"].

Definition all_fields : list string := base_fields ++ declared_fields.

Fixpoint alias_of (table : list (string * string)) (field : string)
  : option string :=
  match table with
  | [] => None
  | (name, tag) :: rest =>
      if String.eqb field name then Some tag else alias_of rest field
  end.

(** [{k: None if v == 0 else v for k, v in values.items()}] *)
Definition replace_zero (values : gmap string val) : gmap string val :=
  (fun v => if eq_zero v then None_ else v) <$> values.

(** A Python dict as the code uses it: the entries, and the keys in the
    order in which they were first stored. Storing under a key that is
    there keeps its place. *)
Record pydict : Type := {
  content : gmap string val;
  order : list string;
}.

#[export] Instance pydict_empty : Empty pydict :=
  {| content := ∅; order := [] |}.

#[export] Instance pydict_lookup : Lookup string val pydict :=
  fun k d => content d !! k.

#[export] Instance pydict_insert : Insert string val pydict :=
  fun k v d =>
    {| content := <[k := v]> (content d);
       order := if bool_decide (k ∈ order d) then order d
                else order d ++ [k] |}.

(** Modelled from the spec: the base record class is not among the
    sources; the spec has the alias table applied in reverse, a vendor tag
    standing for the field it is the alias of. The reversed table is a dict
    built from the entries in order, so the last entry with a tag decides; a
    key that is no alias stands for itself. *)
Definition field_of_tag (tag : string) : string :=
  fold_left (fun name entry =>
               if String.eqb (snd entry) tag then fst entry else name)
            __alias_dict__ tag.

(** Modelled from the spec: the renaming is done by the base record class,
    which is not among the sources. The keyword arguments under their field
    names: the entries are taken in the order of the dict, so when two keys
    stand for one field the later one decides. *)
Definition use_alias (values : gmap string val) (keys : list string)
  : gmap string val :=
  fold_left (fun renamed k =>
               match values !! k with
               | Some v => <[field_of_tag k := v]> renamed
               | None => renamed
               end) keys ∅.

(** Modelled from the spec: the fields are validated by the library the
    record classes are built on, which is not among the sources. What it
    does where the statements below do not depend on it is a parameter: how
    it reads a date, whether it takes an int or an integral float beyond 64
    bits for an int, and what int, if any, it makes of a bool or of a
    string that is not a short run of digits. *)
Class Validation : Type := {
  to_date : val -> option val;
  big_int_as_int : bool;
  big_float_as_int : bool;
  other_as_int : val -> option Z;
}.

(** Strictly within the range of a signed 64-bit integer. *)
Definition in_int64 (z : Z) : bool := (- 2 ^ 63 <? z) && (z <? 2 ^ 63).

(** The integer a float stands for, when it stands for one. *)
Definition float_integer (f : spec_float) : option Z :=
  match f with
  | S754_zero _ => Some 0
  | S754_infinity _ | S754_nan => None
  | S754_finite s m e =>
      let sign := if s then (-1) else 1 in
      if 0 <=? e then Some (sign * (Z.pos m * 2 ^ e))
      else if Z.pos m mod 2 ^ (- e) =? 0
           then Some (sign * (Z.pos m / 2 ^ (- e)))
           else None
  end.

Definition is_digit (c : ascii) : bool :=
  (48 <=? nat_of_ascii c)%nat && (nat_of_ascii c <=? 57)%nat.

Fixpoint all_digits (s : string) : bool :=
  match s with
  | EmptyString => true
  | String c rest => is_digit c && all_digits rest
  end.

Fixpoint digits_value (acc : Z) (s : string) : Z :=
  match s with
  | EmptyString => acc
  | String c rest =>
      digits_value (10 * acc + (Z.of_nat (nat_of_ascii c) - 48)) rest
  end.

(** Modelled from the spec: the spec has these fields optional and
    numeric, and the class declares them [Optional[int]]; the validation is
    the library's, in its default (lax) mode. [None] when the value is
    refused. [None] and an int pass; a float passes as the integer it
    equals and is refused when it has a fractional part, is infinite or is
    a NaN; a short run of digits passes as the number it spells. *)
Definition optional_int {VL : Validation} (v : val) : option val :=
  match v with
  | None_ => Some None_
  | Int z => if in_int64 z || big_int_as_int then Some (Int z) else None
  | Float f =>
      match float_integer f with
      | Some z => if in_int64 z || big_float_as_int then Some (Int z) else None
      | None => None
      end
  | Str s =>
      if negb (String.eqb s "") && all_digits s
         && (String.length s <=? 18)%nat
      then Some (Int (digits_value 0 s))
      else Int <$> other_as_int v
  | Bool _ => Int <$> other_as_int v
  | List _ | Dict _ => None
  end.

(** Modelled from the spec: the fiscal period token is a field of the base
    record class, which is not among the sources. A value for a field
    declared [Optional[str]]: a string or [None]; a number is not made into
    a string. *)
Definition optional_str (v : val) : option val :=
  match v with
  | None_ => Some None_
  | Str s => Some (Str s)
  | _ => None
  end.

(** Modelled from the spec: the base record class is not among the
    sources; the spec gives its fields as the period end date, a date; the
    fiscal year, an integer; the fiscal period, a token. The date is
    required, the other two may be [None] or absent. Every field of this
    class is declared [Optional[int]] with default [None]. [input] is the
    keyword argument for the field, if there is one. *)
Definition validate_field {VL : Validation} (field : string) (input : option val)
  : option val :=
  if String.eqb field "period_ending" then
    match input with
    | None | Some None_ => None
    | Some v => to_date v
    end
  else if String.eqb field "fiscal_period" then
    match input with
    | None => Some None_
    | Some v => optional_str v
    end
  else
    match input with
    | None => Some None_
    | Some v => optional_int v
    end.

(** Modelled from the spec: the constructor [IntrinioBalanceSheetData],
    called on the keyword arguments; what it does beyond [replace_zero] is
    the work of the base record class, which is not among the sources. The
    [mode="before"] validator [replace_zero] runs, the keys are put under
    their field names, then every field is validated; one refused field is
    a validation error. The record is the map from each field name to its
    validated value, together with the keyword arguments that name no
    field, kept as they are: the base record class allows extra entries,
    where the spec has them dropped. *)
Definition new_record {VL : Validation} (kwargs : pydict)
  : result (gmap string val) :=
  let values := replace_zero (content kwargs) in
  let renamed := use_alias values (order kwargs) in
  if forallb (fun field => bool_decide
                             (is_Some (validate_field field (renamed !! field))))
             all_fields
  then Ok (list_to_map
             ((fun field =>
                 (field,
                  default None_ (validate_field field (renamed !! field))))
                <$> all_fields)
           ∪ renamed)
  else Raise ValidationError.

(* ===================================================================== *)
(** ** IntrinioBalanceSheetFetcher                                       *)
(* ===================================================================== *)

(** What [callback] returns for one period: a dict with exactly these four
    keys. *)
Record RawStatement : Type := {
  st_period_ending : val;
  st_fiscal_year : val;
  st_fiscal_period : val;
  st_financials : val;
}.

(** Extraction assigns to the query object it is handed, warns, and sends
    requests: the state it runs in is that object, the warnings emitted so
    far and the URLs requested so far, oldest first. *)
Record world : Type := {
  query : QueryParams;
  warnings : list string;
  requests : list string;
}.

Definition M (A : Type) : Type := world -> result A * world.

#[export] Instance M_ret : MRet M := fun _ a w => (Ok a, w).
#[export] Instance M_bind : MBind M := fun _ _ k m w =>
  match m w with
  | (Ok a, w') => k a w'
  | (Raise e, w') => (Raise e, w')
  end.

Definition lift {A : Type} (r : result A) : M A := fun w => (r, w).

Definition get_query : M QueryParams := fun w => (Ok (query w), w).

(** [query.fiscal_year = y] *)
Definition set_fiscal_year (y : Z) : M unit := fun w =>
  (Ok tt,
   {| query := {| symbol := symbol (query w);
                  period := period (query w);
                  fiscal_year := Some y;
                  limit := limit (query w) |};
      warnings := warnings w;
      requests := requests w |}).

(** [_warn(msg)] *)
Definition warn (msg : string) : M unit := fun w =>
  (Ok tt,
   {| query := query w;
      warnings := warnings w ++ [msg];
      requests := requests w |}).

Definition send (urls : list string) : M unit := fun w =>
  (Ok tt,
   {| query := query w;
      warnings := warnings w;
      requests := requests w ++ urls |}).

Definition statement_code : string := "balance_sheet_statement".
Definition base_url : string := "https://api-v2.intrinio.com".
Definition floor_warning : string :=
  "Financials data is only available from 2008 and later.".

(** [credentials.get("intrinio_api_key") if credentials else ""]: an empty
    mapping is falsy, and [get] gives [None] for a missing key. *)
Definition api_key_of (credentials : option (gmap string string)) : val :=
  match credentials with
  | Some c =>
      if bool_decide (c = ∅) then Str ""
      else match c !! "intrinio_api_key" with
           | Some k => Str k
           | None => None_
           end
  | None => Str ""
  end.

(** The item of the list comprehension that builds [fiscal_periods]. *)
Definition fiscal_period_ref `{Runtime} (item : val) : result string :=
  y ← getitem item "fiscal_year";
  p ← getitem item "fiscal_period";
  Ok (str y +:+ "-" +:+ str p).

(** The item of the list comprehension that builds [urls]. *)
Definition period_url `{Runtime} (q : QueryParams) (api_key : val)
    (period : string) : string :=
  base_url +:+ "/fundamentals/" +:+ symbol q +:+ "-" +:+ statement_code
    +:+ "-" +:+ period +:+ "/standardized_financials?api_key="
    +:+ str api_key.

Definition callback (statement_data : val) : result RawStatement :=
  fundamental ← getitem statement_data "fundamental";
  end_date ← getitem fundamental "end_date";
  year ← getitem fundamental "fiscal_year";
  token ← getitem fundamental "fiscal_period";
  financials ← getitem statement_data "standardized_financials";
  Ok {| st_period_ending := end_date;
        st_fiscal_year := year;
        st_fiscal_period := token;
        st_financials := financials |}.

Section Extractor.

Context `{Runtime}.

(** The vendor: the JSON body it answers a URL with, or no answer. *)
Variable vendor : string -> option val.

(** Modelled from the spec: the helper [get_data_one] is not among the
    sources; one request, whose failure is propagated to the caller. *)
Definition get_data_one (url : string) : M val :=
  send [url];;
  lift (match vendor url with
        | Some body => Ok body
        | None => Raise RequestError
        end).

(** Modelled from the spec: the helper [amake_requests] is not among the
    sources; all requests are issued, independent of one another, and the
    results come back in request order, all of them or an exception. *)
Definition amake_requests {A : Type} (urls : list string)
    (on_response : val -> result A) : M (list A) :=
  send urls;;
  lift (for_each (fun url => match vendor url with
                             | Some body => on_response body
                             | None => Raise RequestError
                             end) urls).

Definition aextract_data (credentials : option (gmap string string))
  : M (list RawStatement) :=
  let api_key := api_key_of credentials in
  q ← get_query;
  let fundamentals_url :=
    base_url +:+ "/companies/" +:+ symbol q +:+ "/fundamentals?"
      +:+ "statement_code=" +:+ statement_code +:+ "&type=" +:+ period q in
  fundamentals_url ←
    match fiscal_year q with
    | Some y =>
        (if y <? 2008
         then warn floor_warning;; set_fiscal_year 2008
         else mret tt);;
        q ← get_query;
        mret (fundamentals_url +:+ "&fiscal_year="
                +:+ str (from_option Int None_ (fiscal_year q)))
    | None => mret fundamentals_url
    end;
  let fundamentals_url := fundamentals_url +:+ "&api_key=" +:+ str api_key in
  body ← get_data_one fundamentals_url;
  fundamentals_data ← lift (get body "fundamentals" (List []));
  items ← lift (iter fundamentals_data);
  fiscal_periods ← lift (for_each fiscal_period_ref items);
  q ← get_query;
  let fiscal_periods := slice_to (limit q) fiscal_periods in
  let urls := period_url q api_key <$> fiscal_periods in
  amake_requests urls callback.

End Extractor.

Section Transformer.

Context `{Runtime} {VL : Validation}.

(** [float(v) if v and v != 0 else None] *)
Definition coerce (value : val) : result val :=
  if truthy value && ne_zero value then Float <$> float value
  else Ok None_.

(** The body of the inner loop. The working state is [sub_dict] and a flag
    that records a key that is not a string: such a key is stored like any
    other and is refused only when the dict is unpacked into keyword
    arguments; a list or a dict cannot be a key at all. *)
Definition line_item (acc : pydict * bool) (sub_item : val)
  : result (pydict * bool) :=
  data_tag ← getitem sub_item "data_tag";
  field_name ← getitem data_tag "tag";
  value ← getitem sub_item "value";
  x ← coerce value;
  match field_name with
  | Str name => Ok (<[name := x]> (fst acc), snd acc)
  | List _ | Dict _ => Raise TypeError
  | _ => Ok (fst acc, true)
  end.

Fixpoint line_items (items : list val) (acc : pydict * bool)
  : result (pydict * bool) :=
  match items with
  | [] => Ok acc
  | sub_item :: rest =>
      acc' ← line_item acc sub_item;
      line_items rest acc'
  end.

(** [item["fiscal_period"] == "FY"] *)
Definition is_str (v : val) (s : string) : bool :=
  match v with
  | Str s' => String.eqb s' s
  | _ => false
  end.

(** The body of the outer loop: the record appended for one statement. *)
Definition transform_item (q : QueryParams) (item : RawStatement)
  : result (gmap string val) :=
  items ← iter (st_financials item);
  '(sub_dict, stray) ← line_items items (∅, false);
  let sub_dict : pydict :=
    <["period_ending" := st_period_ending item]> sub_dict in
  let sub_dict := <["fiscal_year" := st_fiscal_year item]> sub_dict in
  let sub_dict := <["fiscal_period" := st_fiscal_period item]> sub_dict in
  let sub_dict :=
    if String.eqb (period q) "QTR" && is_str (st_fiscal_period item) "FY"
    then <["fiscal_period" := Str "Q4"]> sub_dict
    else sub_dict in
  if stray : bool then Raise TypeError else new_record sub_dict.

Definition transform_data (q : QueryParams) (data : list RawStatement)
  : result (list (gmap string val)) :=
  for_each (transform_item q) data.

End Transformer.

Definition transform_query {BQ : BaseQuery} (params : Params)
  : result QueryParams :=
  new_query params.

(** The state a fetch starts in. *)
Definition fresh (q : QueryParams) : world :=
  {| query := q; warnings := []; requests := [] |}.

Section Fetch.

Context `{Runtime} {VL : Validation} {BQ : BaseQuery}.
Variable vendor : string -> option val.

(** Modelled from the spec: the base fetcher, which chains the stages, is
    not among the sources; the data flows one way, normalizer, extractor,
    transformer, and the transformer is handed the query object the
    extractor worked on. *)
Definition extract_and_transform (credentials : option (gmap string string))
  : M (list (gmap string val)) :=
  data ← aextract_data vendor credentials;
  q ← get_query;
  lift (transform_data q data).

Definition fetch (params : Params) (credentials : option (gmap string string))
  : result (result (list (gmap string val)) * world) :=
  q ← transform_query params;
  Ok (extract_and_transform credentials (fresh q)).

End Fetch.

(* ===================================================================== *)
(** ** Extraction, read as a function of the query and the vendor        *)
(* ===================================================================== *)

(** The year the listing request carries for a pinned year [y]. *)
Definition effective_year (y : Z) : Z := if y <? 2008 then 2008 else y.

(** The query object as extraction leaves it. *)
Definition after_extraction (q : QueryParams) : QueryParams :=
  {| symbol := symbol q;
     period := period q;
     fiscal_year := effective_year <$> fiscal_year q;
     limit := limit q |}.

(** The warnings extraction emits for a query. *)
Definition floor_warnings (q : QueryParams) : list string :=
  match fiscal_year q with
  | Some y => if y <? 2008 then [floor_warning] else []
  | None => []
  end.

(** The URL of the listing request, for the query as extraction leaves
    it. *)
Definition listing_url `{Runtime} (q : QueryParams) (api_key : val) : string :=
  let fundamentals_url :=
    base_url +:+ "/companies/" +:+ symbol q +:+ "/fundamentals?"
      +:+ "statement_code=" +:+ statement_code +:+ "&type=" +:+ period q in
  match fiscal_year q with
  | Some y => fundamentals_url +:+ "&fiscal_year=" +:+ str (Int y)
  | None => fundamentals_url
  end +:+ "&api_key=" +:+ str api_key.

(** The fiscal periods a listing body names, in the order of the body. *)
Definition fiscal_periods_of `{Runtime} (body : val) : result (list string) :=
  fundamentals_data ← get body "fundamentals" (List []);
  items ← iter fundamentals_data;
  for_each fiscal_period_ref items.

(** What one per-period request contributes. *)
Definition statement_at (vendor : string -> option val) (url : string)
  : result RawStatement :=
  match vendor url with
  | Some body => callback body
  | None => Raise RequestError
  end.

(** A line item as the vendor sends it. *)
Definition item_of (tag : val) (value : val) : val :=
  Dict [("data_tag", Dict [("tag", tag)]); ("value", value)].

(** The tag of a line item when it is a string. *)
Definition item_tag (sub_item : val) : option string :=
  match getitem sub_item "data_tag" ≫= (fun d => getitem d "tag") with
  | Ok (Str name) => Some name
  | _ => None
  end.

(** The value of a line item. *)
Definition item_value (sub_item : val) : option val :=
  match getitem sub_item "value" with
  | Ok v => Some v
  | Raise _ => None
  end.


(** The keyword arguments [transform_item] builds the record from, given
    the working dict as the inner loop leaves it. *)
Definition keyword_arguments (q : QueryParams) (item : RawStatement)
    (sub_dict : pydict) : pydict :=
  let sub_dict : pydict :=
    <["period_ending" := st_period_ending item]> sub_dict in
  let sub_dict := <["fiscal_year" := st_fiscal_year item]> sub_dict in
  let sub_dict := <["fiscal_period" := st_fiscal_period item]> sub_dict in
  if String.eqb (period q) "QTR" && is_str (st_fiscal_period item) "FY"
  then <["fiscal_period" := Str "Q4"]> sub_dict
  else sub_dict.

(** A statement with its line items replaced. *)
Definition with_financials (item : RawStatement) (financials : val)
  : RawStatement :=
  {| st_period_ending := st_period_ending item;
     st_fiscal_year := st_fiscal_year item;
     st_fiscal_period := st_fiscal_period item;
     st_financials := financials |}.

(** Whether a call returned. *)
Definition returned {A : Type} (r : result A) : bool :=
  match r with
  | Ok _ => true
  | Raise _ => false
  end.



(** Whether a line item carries a tag that stands for a given name. *)
Definition stands_for (name : string) (sub_item : val) : bool :=
  match item_tag sub_item with
  | Some tag => String.eqb (field_of_tag tag) name
  | None => false
  end.

(** What the inner loop stores: [None] or a float. *)
Definition coerced (x : val) : bool :=
  match x with
  | None_ | Float _ => true
  | _ => false
  end.

(** The values [bool] takes for false. *)
Definition falsy (v : val) : bool := negb (truthy v).


(* ===================================================================== *)
(** ** A stub vendor: the end-to-end scenario                            *)
(* ===================================================================== *)

(** An interpreter that reads the strings ["0"] and ["0.0"] as the float
    zero and no other string as a float. *)
Definition demo_runtime : Runtime :=
  {| float_of_str := fun s =>
       if String.eqb s "0" || String.eqb s "0.0"
       then Some (S754_zero false) else None;
     str_of_float := fun _ => "0.0";
     str_of_container := fun _ => "[]" |}.

(** A validation library that takes the text of a date for the date, takes
    any int and any integral float for an int, and makes no int of a bool
    or of a string that is not a short run of digits. *)
Definition demo_validation : Validation :=
  {| to_date := fun v => match v with Str s => Some (Str s) | _ => None end;
     big_int_as_int := true;
     big_float_as_int := true;
     other_as_int := fun _ => None |}.

Definition upper (c : ascii) : ascii :=
  let n := nat_of_ascii c in
  if (97 <=? n)%nat && (n <=? 122)%nat then ascii_of_nat (n - 32) else c.

Fixpoint upper_case (s : string) : string :=
  match s with
  | EmptyString => EmptyString
  | String c rest => String (upper c) (upper_case rest)
  end.

(** A base query class that upper-cases the symbol. *)
Definition demo_base : BaseQuery.
Proof.
  refine {| base_symbol := upper_case |}.
  intros s. unfold handle_symbol.
  induction s as [|c s IH]; [reflexivity|].
  cbn [upper_case replace].
  destruct (Ascii.eqb (upper c) "-") eqn:E.
  - change (upper_case (String "." (replace "-" "." (upper_case s)))
            = String "." (replace "-" "." (upper_case s))).
    cbn [upper_case]. by rewrite IH.
  - cbn [upper_case]. rewrite IH. f_equal.
    destruct c as [[] [] [] [] [] [] [] []]; reflexivity.
Defined.

Definition descriptor (year : Z) (token : string) : val :=
  Dict [("fiscal_year", Int year); ("fiscal_period", Str token)].

Definition statement (end_date : string) (year : Z) (token : string)
    (items : list val) : val :=
  Dict [("fundamental",
         Dict [("end_date", Str end_date);
               ("fiscal_year", Int year);
               ("fiscal_period", Str token)]);
        ("standardized_financials", List items)].

Definition demo_items_2022 : list val :=
  [item_of (Str "totalassets") (Int 100);
   item_of (Str "goodwill") (Int 0);
   item_of (Str "netppe") (Str "0");
   item_of (Str "vendoronlytag") (Int 7);
   item_of (Str "longtermdebt") (Float (S754_zero true));
   item_of (Str "restrictedcash") None_].

(** Three listing entries, and a statement for each of the first two; one
    listing entry for a query pinned to 2008. *)
Definition demo_site : list (string * val) :=
  [("https://api-v2.intrinio.com/companies/BRK.B/fundamentals?statement_code=balance_sheet_statement&type=FY&api_key=",
    Dict [("fundamentals",
           List [descriptor 2022 "FY"; descriptor 2021 "FY";
                 descriptor 2020 "FY"])]);
   ("https://api-v2.intrinio.com/fundamentals/BRK.B-balance_sheet_statement-2022-FY/standardized_financials?api_key=",
    statement "2022-12-31" 2022 "FY" demo_items_2022);
   ("https://api-v2.intrinio.com/fundamentals/BRK.B-balance_sheet_statement-2021-FY/standardized_financials?api_key=",
    statement "2021-12-31" 2021 "FY"
      [item_of (Str "totalassets") (Int 90)]);
   ("https://api-v2.intrinio.com/companies/BRK.B/fundamentals?statement_code=balance_sheet_statement&type=FY&fiscal_year=2008&api_key=",
    Dict [("fundamentals", List [descriptor 2008 "FY"])]);
   ("https://api-v2.intrinio.com/fundamentals/BRK.B-balance_sheet_statement-2008-FY/standardized_financials?api_key=",
    statement "2008-12-31" 2008 "FY"
      [item_of (Str "totalassets") (Int 50)])].

Definition demo_vendor (url : string) : option val := assoc url demo_site.

Definition demo_params : Params :=
  {| kw_symbol := "BRK-B"; kw_period := Some (Str "annual");
     kw_fiscal_year := None; kw_limit := 2 |}.

Definition demo_query : QueryParams :=
  {| symbol := "BRK.B"; period := "FY"; fiscal_year := None; limit := 2 |}.

Definition demo_query_2007 : QueryParams :=
  {| symbol := "BRK.B"; period := "FY"; fiscal_year := Some 2007;
     limit := 2 |}.

Definition demo_quarterly : QueryParams :=
  {| symbol := "BRK.B"; period := "QTR"; fiscal_year := None; limit := 2 |}.

Definition demo_statement : RawStatement :=
  {| st_period_ending := Str "2022-12-31";
     st_fiscal_year := Int 2022;
     st_fiscal_period := Str "FY";
     st_financials := List demo_items_2022 |}.

(* ===================================================================== *)
(** ** Further definitions for statements about the code                 *)
(* ===================================================================== *)

(** The keyword arguments that spell out a query object again. *)
Definition params_of_query (q : QueryParams) : Params :=
  {| kw_symbol := symbol q;
     kw_period := Some (Str (period q));
     kw_fiscal_year := fiscal_year q;
     kw_limit := limit q |}.

(** [None if v == 0 else v] *)
Definition unset_zero (v : val) : val := if eq_zero v then None_ else v.

(** Whether the three entries a statement carries of its own pass the
    validation of their fields. The fiscal period the record is built with
    is the statement's or [Q4], a string, which passes whenever the
    statement's does. *)
Definition statement_fields_accepted {VL : Validation} (item : RawStatement)
  : bool :=
  bool_decide (is_Some (validate_field "period_ending"
                          (Some (unset_zero (st_period_ending item))))) &&
  bool_decide (is_Some (validate_field "fiscal_year"
                          (Some (unset_zero (st_fiscal_year item))))) &&
  bool_decide (is_Some (validate_field "fiscal_period"
                          (Some (unset_zero (st_fiscal_period item))))).

(** A statement with a zero fiscal year, a first-quarter token and a line
    item that carries the tag of a statement entry. *)
Definition demo_odd_statement : RawStatement :=
  {| st_period_ending := Str "2022-03-31";
     st_fiscal_year := Int 0;
     st_fiscal_period := Str "Q1";
     st_financials := List [item_of (Str "period_ending") (Int 5);
                            item_of (Str "fiscal_period") (Int 9)] |}.






(** A statement without a period end date. *)
Definition demo_undated_statement : RawStatement :=
  {| st_period_ending := Int 0;
     st_fiscal_year := Int 2022;
     st_fiscal_period := Str "FY";
     st_financials := List [] |}.

(** A line item with a tag and no value. *)
Definition demo_item_no_value : val :=
  Dict [("data_tag", Dict [("tag", Str "vendoronlytag")])].

(** A line item whose tag is the JSON number 7. *)
Definition demo_item_numeric_tag : val := item_of (Int 7) (Int 1).

(* ===================================================================== *)
(** ** Conversion of an int to a float                                   *)
(* ===================================================================== *)









(* ===================================================================== *)
(** ** Extraction as one function                                        *)
(* ===================================================================== *)

Section ExtractionRun.
Context `{Runtime}.
Variable vendor : string -> option val.

Ltac run_M :=
  repeat (unfold mbind, M_bind, get_query, warn, set_fiscal_year, mret, M_ret,
    get_data_one, amake_requests, send, lift;
  cbn [query symbol period fiscal_year limit warnings requests from_option]).

(** [aextract_data] in one piece: the query is clamped, the warning and the
    listing request are logged, and the outcome is decided by the vendor's
    answers alone. *)
Lemma aextract_data_run credentials w :
  let key := api_key_of credentials in
  let q := after_extraction (query w) in
  let w1 := {| query := q;
               warnings := warnings w ++ floor_warnings (query w);
               requests := requests w ++ [listing_url q key] |} in
  aextract_data vendor credentials w =
  match (match vendor (listing_url q key) with Some body => fiscal_periods_of body | None => Raise RequestError end) with
  | Raise e => (Raise e, w1)
  | Ok periods =>
      let urls := period_url q key <$> slice_to (limit q) periods in
      (for_each (statement_at vendor) urls,
       {| query := q; warnings := warnings w1; requests := requests w1 ++ urls |})
  end.
Proof.
  destruct w as [[sy pe fy li] ws rs].
  unfold aextract_data, listing_url, after_extraction, floor_warnings,
    fiscal_periods_of, effective_year, statement_at.
  run_M.
  destruct fy as [y|]; cbn [fmap option_fmap option_map];
    [destruct (y <? 2008)|]; run_M; rewrite ?app_nil_r;
    unfold result_bind;
    (destruct (vendor _) as [body|]; [|reflexivity]);
    (destruct (get body _ _) as [fd|]; [|reflexivity]);
    (destruct (iter fd) as [items|]; [|reflexivity]);
    (destruct (for_each _ items) as [periods|]; reflexivity).
Qed.
End ExtractionRun.

(* ===================================================================== *)
(** ** Query construction                                                *)
(* ===================================================================== *)

Section QueryFacts.
Context {BQ : BaseQuery}.

(** Claim C5. Query construction turns the period [annual] into [FY] and
    [quarter] into [QTR], and raises a validation error for any other
    period value. *)
Theorem period_tokens (params : Params) (v : val) :
  kw_period params = Some v ->
  (v = Str "annual" -> 0 < kw_limit params ->
     exists q, transform_query params = Ok q /\ period q = "FY") /\
  (v = Str "quarter" -> 0 < kw_limit params ->
     exists q, transform_query params = Ok q /\ period q = "QTR") /\
  (v <> Str "annual" -> v <> Str "quarter" ->
     transform_query params = Raise ValidationError).
Proof.
  intros Hv. unfold transform_query, new_query. rewrite Hv.
  repeat split.
  - intros -> Hl. cbn. unfold limit_field.
    destruct (0 <? kw_limit params) eqn:E; [|lia].
    eexists; split; reflexivity.
  - intros -> Hl. cbn. unfold limit_field.
    destruct (0 <? kw_limit params) eqn:E; [|lia].
    eexists; split; reflexivity.
  - intros Ha Hq. destruct v as [|b|z|f|s|l|d]; try reflexivity.
    cbn [period_field].
    destruct (String.eqb_spec s "annual") as [->|_]; [congruence|].
    destruct (String.eqb_spec s "quarter") as [->|_]; [congruence|].
    reflexivity.
Qed.

Lemma replace_get (c : ascii) (new : ascii) (s : string) (i : nat) :
  String.get i (replace c (String new EmptyString) s) =
  (fun a => if Ascii.eqb a c then new else a) <$> String.get i s.
Proof.
  revert i. induction s as [|a s IH]; intros i; [reflexivity|].
  cbn [replace]. destruct (Ascii.eqb a c) eqn:E.
  - destruct i; cbn; [by rewrite E|apply IH].
  - destruct i; cbn; [by rewrite E|apply IH].
Qed.

Lemma replace_length (c new : ascii) (s : string) :
  String.length (replace c (String new EmptyString) s) = String.length s.
Proof.
  induction s as [|a s IH]; [reflexivity|].
  cbn [replace]. destruct (Ascii.eqb a c).
  - change (S (String.length (replace c (String new EmptyString) s))
            = S (String.length s)).
    by rewrite IH.
  - cbn [String.length]. by rewrite IH.
Qed.

Lemma replace_absent (c : ascii) (new : string) (s : string) :
  (forall i, String.get i s <> Some c) -> replace c new s = s.
Proof.
  induction s as [|a s IH]; intros Hs; [reflexivity|].
  cbn [replace]. destruct (Ascii.eqb_spec a c) as [->|_].
  - by destruct (Hs 0%nat).
  - f_equal. apply IH. intros i. exact (Hs (S i)).
Qed.

(** Claim C6, amended. The symbol of a constructed query is the symbol the
    base class makes of the given one, with every hyphen replaced by a
    period: no other character of it is changed, no hyphen is left, and
    when it has no hyphen it is the symbol of the query as it is. *)
Theorem symbol_hyphens (params : Params) (q : QueryParams) :
  transform_query params = Ok q ->
  let s := base_symbol (kw_symbol params) in
  symbol q = handle_symbol s /\
  String.length (symbol q) = String.length s /\
  (forall i, String.get i (symbol q) =
             (fun a => if Ascii.eqb a "-" then "."%char else a) <$> String.get i s) /\
  (forall i, String.get i (symbol q) <> Some "-"%char) /\
  ((forall i, String.get i s <> Some "-"%char) -> symbol q = s).
Proof.
  unfold transform_query, new_query. intros Hq.
  destruct (period_field _) as [p|]; [|discriminate].
  destruct (limit_field _) as [n|]; [|discriminate].
  injection Hq as <-. cbn [symbol]. unfold handle_symbol.
  split; [reflexivity|]. repeat split.
  - apply replace_length.
  - intros i. apply replace_get.
  - intros i. rewrite replace_get.
    destruct (String.get i (base_symbol (kw_symbol params))) as [ch|];
      [|discriminate].
    cbn. destruct (Ascii.eqb_spec ch "-"); congruence.
  - apply replace_absent.
Qed.
End QueryFacts.

Lemma period_tokens_witness :
  (exists q, transform_query (BQ := demo_base) demo_params = Ok q /\
             period q = "FY") /\
  transform_query (BQ := demo_base)
    {| kw_symbol := "BRK-B"; kw_period := Some (Str "monthly");
       kw_fiscal_year := None; kw_limit := 2 |}
    = Raise ValidationError.
Proof.
  split.
  - apply (period_tokens (BQ := demo_base) demo_params (Str "annual"));
      [reflexivity|reflexivity|reflexivity].
  - apply (period_tokens (BQ := demo_base) _ (Str "monthly"));
      [reflexivity|discriminate..].
Defined.

Lemma symbol_hyphens_witness :
  String.length "BRK.B" = String.length "BRK-B" /\
  forall i, String.get i "BRK.B" <> Some "-"%char.
Proof.
  pose proof (symbol_hyphens (BQ := demo_base) demo_params
                {| symbol := "BRK.B"; period := "FY";
                   fiscal_year := None; limit := 2 |} eq_refl)
    as (_ & Hlen & _ & Hnone & _).
  split; [exact Hlen|exact Hnone].
Defined.

(** Claim C6 as stated fails: under a base class that upper-cases, the
    symbol [aapl] has no hyphen and is not left unchanged, and the symbol
    [brk-b] loses more than its hyphen. *)
Lemma symbol_changed_without_hyphen :
  (forall i, String.get i "aapl" <> Some "-"%char) /\
  (exists q,
     transform_query (BQ := demo_base)
       {| kw_symbol := "aapl"; kw_period := Some (Str "annual");
          kw_fiscal_year := None; kw_limit := 2 |} = Ok q /\
     symbol q = "AAPL" /\ symbol q <> "aapl") /\
  (exists q,
     transform_query (BQ := demo_base)
       {| kw_symbol := "brk-b"; kw_period := Some (Str "annual");
          kw_fiscal_year := None; kw_limit := 2 |} = Ok q /\
     symbol q = "BRK.B" /\
     String.get 0 (symbol q) <> String.get 0 "brk-b").
Proof.
  split; [|split].
  - intros [|[|[|[|i]]]]; discriminate.
  - eexists. split; [reflexivity|]. split; [reflexivity|discriminate].
  - eexists. split; [reflexivity|]. split; [reflexivity|discriminate].
Qed.

(* ===================================================================== *)
(** ** Extraction                                                        *)
(* ===================================================================== *)

Lemma for_each_Forall2 {A B : Type} (body : A -> result B) (l : list A) (ys : list B) :
  for_each body l = Ok ys -> Forall2 (fun x y => body x = Ok y) l ys.
Proof.
  revert ys. induction l as [|x l IH]; intros ys; cbn [for_each].
  - intros [= <-]. constructor.
  - unfold mbind, result_bind.
    destruct (body x) as [y|] eqn:Ey; [|discriminate].
    destruct (for_each body l) as [ys'|]; [|discriminate].
    intros [= <-]. constructor; [exact Ey|]. by apply IH.
Qed.


Lemma for_each_total {A B : Type} (body : A -> result B) (l : list A) :
  (forall x, x ∈ l -> exists y, body x = Ok y) ->
  exists ys, for_each body l = Ok ys.
Proof.
  induction l as [|x l IH]; intros Hl; cbn [for_each]; [by eexists|].
  destruct (Hl x) as [y Hy]; [by left|].
  destruct IH as [ys Hys]; [intros x' Hx'; apply Hl; by right|].
  exists (y :: ys). unfold mbind, result_bind. by rewrite Hy, Hys.
Qed.

Lemma slice_to_length {A : Type} (n : Z) (l : list A) :
  0 <= n -> length (slice_to n l) = Z.to_nat (Z.min n (Z.of_nat (length l))).
Proof.
  intros Hn. unfold slice_to. destruct (0 <=? n) eqn:E; [|lia].
  rewrite length_take. lia.
Qed.

Lemma Forall2_chain {A B C : Type} (P : A -> B -> Prop) (Q : B -> C -> Prop)
    (l : list A) (k : list B) (m : list C) :
  Forall2 P l k -> Forall2 Q k m ->
  Forall2 (fun x z => exists y, P x y /\ Q y z) l m.
Proof.
  intros HP. revert m. induction HP as [|x y l k Hxy _ IH]; intros m HQ.
  - inversion HQ. constructor.
  - inversion HQ as [|? z ? m' Hyz HQ']; subst.
    constructor; [by exists y|by apply IH].
Qed.

Section ExtractionFacts.
Context `{Runtime} {VL : Validation} {BQ : BaseQuery}.
Variable vendor : string -> option val.

Lemma aextract_data_state credentials w :
  let out := aextract_data vendor credentials w in
  query (snd out) = after_extraction (query w) /\
  warnings (snd out) = warnings w ++ floor_warnings (query w) /\
  exists more,
    requests (snd out) =
    requests w ++
      listing_url (after_extraction (query w)) (api_key_of credentials) :: more.
Proof.
  cbv zeta. rewrite aextract_data_run. cbv zeta.
  destruct (match vendor _ with Some body => fiscal_periods_of body | None => _ end)
    as [periods|e]; cbn [snd query warnings requests].
  - repeat split. eexists. by rewrite <- app_assoc.
  - repeat split. by exists [].
Qed.

Lemma getitem_Raise (d : val) (k : string) (e : exn) :
  getitem d k = Raise e -> e = KeyError \/ e = TypeError.
Proof.
  unfold getitem. destruct d; try (intros [= <-]; by right).
  destruct (assoc k d); [discriminate|]. intros [= <-]. by left.
Qed.

Ltac getitem_step :=
  match goal with
  | |- context [getitem ?d ?k] =>
      let E := fresh "E" in
      destruct (getitem d k) eqn:E;
      [|intros [= <-]; exact (getitem_Raise _ _ _ E)]
  end.

Lemma callback_Raise (body : val) (e : exn) :
  callback body = Raise e -> e = KeyError \/ e = TypeError.
Proof.
  unfold callback, mbind, result_bind.
  do 5 getitem_step. discriminate.
Qed.




(** Claim C7. When the query pins a fiscal year below 2008, extraction
    emits the warning once, sends the listing request with
    [fiscal_year=2008], and goes on exactly as it does for a query pinned
    to 2008; a year of 2008 or later is sent as it is, without a warning
    and without touching the query. Query construction leaves the year as
    the caller gave it: the clamp is done by extraction. *)
Theorem fiscal_year_floor credentials w y :
  fiscal_year (query w) = Some y ->
  let out := aextract_data vendor credentials w in
  let q := query w in
  let fundamentals_url :=
    base_url +:+ "/companies/" +:+ symbol q +:+ "/fundamentals?"
      +:+ "statement_code=" +:+ statement_code +:+ "&type=" +:+ period q in
  let sent year :=
    (fundamentals_url +:+ "&fiscal_year=" +:+ year)
      +:+ "&api_key=" +:+ str (api_key_of credentials) in
  (y < 2008 ->
     warnings (snd out) = warnings w ++ [floor_warning] /\
     requests (snd out) !! length (requests w) = Some (sent "2008") /\
     fst out = fst (aextract_data vendor credentials
                      (snd (set_fiscal_year 2008 w)))) /\
  (2008 <= y ->
     warnings (snd out) = warnings w /\
     requests (snd out) !! length (requests w) = Some (sent (pretty y)) /\
     query (snd out) = query w) /\
  (forall params q0,
     transform_query params = Ok q0 ->
     fiscal_year q0 = kw_fiscal_year params).
Proof.
  intros Hy. cbv zeta.
  destruct (aextract_data_state credentials w) as (Hq & Hw & more & Hr).
  rewrite Hw, Hr. unfold floor_warnings. rewrite Hy.
  rewrite list_lookup_middle by reflexivity.
  unfold listing_url, after_extraction in *. rewrite Hy in *.
  cbn [fmap option_fmap option_map fiscal_year symbol period] in *.
  unfold effective_year in *.
  repeat split.
  - destruct (Z.ltb_spec y 2008); [reflexivity|lia].
  - destruct (Z.ltb_spec y 2008); [reflexivity|lia].
  - rewrite !aextract_data_run. cbv zeta.
    destruct w as [[sy pe fy li] ws rs]. cbn in Hy. subst fy.
    unfold after_extraction, listing_url, effective_year.
    cbn [set_fiscal_year snd query fmap option_fmap option_map fiscal_year
         symbol period limit].
    destruct (Z.ltb_spec y 2008); [|lia]. cbn [Z.ltb Z.compare Pos.compare Pos.compare_cont].
    match goal with |- fst (match ?x with _ => _ end) = fst (match ?x with _ => _ end) => destruct x end; reflexivity.
  - destruct (Z.ltb_spec y 2008); [lia|]. apply app_nil_r.
  - destruct (Z.ltb_spec y 2008); [lia|]. reflexivity.
  - rewrite Hq. destruct (Z.ltb_spec y 2008); [lia|].
    destruct w as [[sy pe fy li] ws rs]. cbn in *. by subst.
  - intros params q0. unfold transform_query, new_query, mbind, result_bind.
    destruct (period_field _); [|discriminate].
    destruct (limit_field _); [|discriminate].
    by intros [= <-].
Qed.

Lemma extract_and_transform_state credentials w :
  snd (extract_and_transform vendor credentials w) =
  snd (aextract_data vendor credentials w).
Proof.
  unfold extract_and_transform, mbind, M_bind, get_query, lift.
  destruct (aextract_data vendor credentials w) as [[data|e] w']; reflexivity.
Qed.

Lemma extract_and_transform_result credentials w :
  fst (extract_and_transform vendor credentials w) =
  fst (aextract_data vendor credentials w)
    ≫= transform_data (after_extraction (query w)).
Proof.
  pose proof (aextract_data_state credentials w) as (Hq & _).
  unfold extract_and_transform, mbind, M_bind, get_query, lift in *.
  destruct (aextract_data vendor credentials w) as [[data|e] w'];
    cbn [fst snd] in *; [by rewrite Hq|reflexivity].
Qed.

(** Claim C8, amended. Extraction followed by transformation leaves the
    symbol, the period and the limit of the query object as they were; the
    fiscal year is the one field that can change: a pinned year below 2008
    is overwritten with 2008. A query with no pinned year, or one of 2008
    or later, comes out unchanged. *)
Theorem query_after_fetch credentials w :
  let q := query w in
  let q' := query (snd (extract_and_transform vendor credentials w)) in
  symbol q' = symbol q /\
  period q' = period q /\
  limit q' = limit q /\
  fiscal_year q' = effective_year <$> fiscal_year q /\
  ((forall y, fiscal_year q = Some y -> 2008 <= y) -> q' = q).
Proof.
  cbv zeta. rewrite extract_and_transform_state.
  destruct (aextract_data_state credentials w) as (-> & _).
  repeat split. intros Hy.
  destruct (query w) as [sy pe [y|] li]; [|reflexivity].
  unfold after_extraction, effective_year; cbn.
  specialize (Hy y eq_refl). destruct (Z.ltb_spec y 2008); [lia|reflexivity].
Qed.


(** Claim C4. Given a non-negative limit and a listing that is answered
    and well-formed: the fiscal periods are one per listing item, in the
    order of the listing; they are cut to the first [limit] of them; the
    requests sent are the listing request followed by one request per
    retained period, [min limit n] of them, in order; and when the fetch
    returns, it returns one record per retained period, the i-th record
    being the transformation of the answer to the i-th request. *)
Theorem one_record_per_period credentials w body periods :
  0 <= limit (query w) ->
  let q := after_extraction (query w) in
  let key := api_key_of credentials in
  vendor (listing_url q key) = Some body ->
  fiscal_periods_of body = Ok periods ->
  let retained := slice_to (limit q) periods in
  let urls := period_url q key <$> retained in
  let out := extract_and_transform vendor credentials w in
  (exists items,
     get body "fundamentals" (List []) ≫= iter = Ok items /\
     Forall2 (fun item p => fiscal_period_ref item = Ok p) items periods) /\
  retained = take (Z.to_nat (limit q)) periods /\
  length urls = Z.to_nat (Z.min (limit q) (Z.of_nat (length periods))) /\
  requests (snd out) = requests w ++ listing_url q key :: urls /\
  (forall records,
     fst out = Ok records ->
     length records = length urls /\
     Forall2 (fun url r =>
                exists st, statement_at vendor url = Ok st /\
                           transform_item q st = Ok r) urls records).
Proof.
  intros Hl q key Hbody Hperiods retained urls out.
  assert (Hlq : limit q = limit (query w)) by reflexivity.
  split; [|split; [|split; [|split]]].
  - unfold fiscal_periods_of, mbind, result_bind in *.
    destruct (get body _ _) as [fd|]; [|discriminate].
    destruct (iter fd) as [items|]; [|discriminate].
    exists items. split; [reflexivity|]. by apply for_each_Forall2.
  - subst retained. unfold slice_to. rewrite Hlq.
    destruct (Z.leb_spec 0 (limit (query w))); [reflexivity|lia].
  - subst urls retained. rewrite length_fmap, slice_to_length; [reflexivity|lia].
  - subst out. rewrite extract_and_transform_state, aextract_data_run.
    cbv zeta. fold q key. rewrite Hbody, Hperiods.
    cbn [snd requests warnings]. by rewrite <- app_assoc.
  - intros records. subst out.
    rewrite extract_and_transform_result, aextract_data_run.
    cbv zeta. fold q key. rewrite Hbody, Hperiods. cbn [fst].
    fold retained. fold urls. unfold mbind, result_bind.
    destruct (for_each (statement_at vendor) urls) as [data|] eqn:Edata;
      [|discriminate].
    unfold transform_data. intros Hrec.
    apply for_each_Forall2 in Edata, Hrec.
    split.
    + rewrite <- (Forall2_length _ _ _ Hrec). symmetry.
      exact (Forall2_length _ _ _ Edata).
    + exact (Forall2_chain _ _ _ _ _ Edata Hrec).
Qed.
End ExtractionFacts.

Lemma fiscal_year_floor_witness :
  let out := aextract_data (H := demo_runtime) demo_vendor None (fresh demo_query_2007) in
  warnings (snd out) = [floor_warning] /\
  requests (snd out) !! 0%nat = Some "https://api-v2.intrinio.com/companies/BRK.B/fundamentals?statement_code=balance_sheet_statement&type=FY&fiscal_year=2008&api_key=".
Proof.
  pose proof (fiscal_year_floor (H := demo_runtime) (BQ := demo_base)
                demo_vendor None (fresh demo_query_2007) 2007 eq_refl)
    as [Hlow _].
  destruct (Hlow ltac:(lia)) as (Hw & Hr & _).
  split; [exact Hw|exact Hr].
Defined.

(** Claim C8 as stated fails: a query constructed with fiscal year 2007 is
    a different query after extraction. *)
Lemma query_mutated_by_extraction :
  exists q,
    transform_query (BQ := demo_base)
      {| kw_symbol := "BRK-B"; kw_period := Some (Str "annual");
         kw_fiscal_year := Some 2007; kw_limit := 2 |} = Ok q /\
    query (snd (extract_and_transform (H := demo_runtime)
                  (VL := demo_validation) demo_vendor None (fresh q)))
      <> q.
Proof.
  exists demo_query_2007. split; [reflexivity|].
  vm_compute. discriminate.
Qed.


Lemma one_record_per_period_witness :
  let out := extract_and_transform (H := demo_runtime)
               (VL := demo_validation) demo_vendor None (fresh demo_query) in
  requests (snd out) =
    ["https://api-v2.intrinio.com/companies/BRK.B/fundamentals?statement_code=balance_sheet_statement&type=FY&api_key=";
     "https://api-v2.intrinio.com/fundamentals/BRK.B-balance_sheet_statement-2022-FY/standardized_financials?api_key=";
     "https://api-v2.intrinio.com/fundamentals/BRK.B-balance_sheet_statement-2021-FY/standardized_financials?api_key="] /\
  exists records, fst out = Ok records /\ length records = 2%nat.
Proof.
  pose proof (one_record_per_period (H := demo_runtime)
                (VL := demo_validation) demo_vendor None (fresh demo_query)
                (Dict [("fundamentals",
                        List [descriptor 2022 "FY"; descriptor 2021 "FY";
                              descriptor 2020 "FY"])])
                ["2022-FY"; "2021-FY"; "2020-FY"]
                ltac:(vm_compute; discriminate) eq_refl eq_refl)
    as (_ & _ & _ & Hreq & Hrec).
  split; [exact Hreq|].
  assert (Hok : match fst (extract_and_transform (H := demo_runtime)
                             (VL := demo_validation)
                             demo_vendor None (fresh demo_query)) with
                | Ok _ => true
                | Raise _ => false
                end = true) by (vm_compute; reflexivity).
  destruct (fst (extract_and_transform (H := demo_runtime)
                   (VL := demo_validation) demo_vendor None
                   (fresh demo_query))) as [records|e]; [|discriminate Hok].
  exists records. split; [reflexivity|].
  exact (proj1 (Hrec records eq_refl)).
Defined.

(* ===================================================================== *)
(** ** Record construction                                               *)
(* ===================================================================== *)

(** Looking a key up in a map tabulated from a list of keys. *)
Lemma lookup_tabulate {V : Type} (g : string -> V) (l : list string) (k : string) :
  (list_to_map ((fun f => (f, g f)) <$> l) : gmap string V) !! k =
  if bool_decide (k ∈ l) then Some (g k) else None.
Proof.
  induction l as [|x l IH].
  - cbn. by rewrite lookup_empty.
  - rewrite fmap_cons, list_to_map_cons, lookup_insert.
    destruct (decide (x = k)) as [->|Hne].
    + rewrite bool_decide_eq_true_2; [done|by left].
    + rewrite IH. destruct (decide (k ∈ l)) as [Hin|Hnin].
      * rewrite (bool_decide_eq_true_2 _ Hin).
        rewrite bool_decide_eq_true_2; [done|by right].
      * rewrite (bool_decide_eq_false_2 _ Hnin).
        rewrite bool_decide_eq_false_2; [done|].
        intros [->|?]%elem_of_cons; done.
Qed.

Lemma replace_zero_lookup (values : gmap string val) (k : string) :
  replace_zero values !! k =
  (fun v => if eq_zero v then None_ else v) <$> values !! k.
Proof. unfold replace_zero. apply lookup_fmap. Qed.

Lemma replace_zero_nonzero (values : gmap string val) (k : string) (v : val) :
  replace_zero values !! k = Some v -> eq_zero v = false.
Proof.
  rewrite replace_zero_lookup. destruct (values !! k) as [v0|]; [|discriminate].
  cbn. destruct (eq_zero v0) eqn:E; intros [= <-]; [reflexivity|exact E].
Qed.

Lemma unset_zero_nonzero (v : val) : eq_zero (unset_zero v) = false.
Proof. unfold unset_zero. by destruct (eq_zero v) eqn:E. Qed.

(** Storing under a key, read back. *)
Lemma pydict_lookup_insert (d : pydict) (k k' : string) (v : val) :
  (<[k := v]> d : pydict) !! k' = if decide (k = k') then Some v else d !! k'.
Proof.
  unfold lookup, pydict_lookup, insert at 1, pydict_insert. cbn [content].
  apply lookup_insert.
Qed.


Lemma pydict_lookup_insert_ne (d : pydict) (k k' : string) (v : val) :
  k <> k' -> (<[k := v]> d : pydict) !! k' = d !! k'.
Proof. intros Hne. rewrite pydict_lookup_insert. by case_decide. Qed.

Lemma pydict_lookup_empty (k : string) : (∅ : pydict) !! k = None.
Proof. apply (lookup_empty (M := gmap string)). Qed.

Lemma pydict_lookup_content (d : pydict) (k : string) :
  d !! k = content d !! k.
Proof. reflexivity. Qed.

Lemma pydict_order_insert (d : pydict) (k : string) (v : val) :
  order (<[k := v]> d) =
  if bool_decide (k ∈ order d) then order d else order d ++ [k].
Proof. reflexivity. Qed.

(** The keys of a dict after storing under a key: that key and the keys
    before. *)
Lemma elem_of_order_insert (d : pydict) (k k' : string) (v : val) :
  k' ∈ order (<[k := v]> d) <-> k' = k \/ k' ∈ order d.
Proof.
  rewrite pydict_order_insert. case_bool_decide as Hk.
  - split; [by right|]. by intros [->|?].
  - rewrite elem_of_app, list_elem_of_singleton. tauto.
Qed.

(** The name a key stands for is the key or a name of the table. *)
Lemma field_of_tag_cases (tag : string) :
  field_of_tag tag = tag \/ field_of_tag tag ∈ (fst <$> __alias_dict__).
Proof.
  unfold field_of_tag. generalize __alias_dict__ as table. intros table.
  induction table as [|entry table IH] using rev_ind; [by left|].
  rewrite fold_left_app, fmap_app. cbn [fold_left].
  destruct (String.eqb (snd entry) tag).
  - right. apply elem_of_app. right. cbn. by left.
  - destruct IH as [IH|IH]; [by left|]. right. apply elem_of_app. by left.
Qed.

(** A name the table does not list is stood for by itself alone. *)
Lemma field_of_tag_self (name k : string) :
  name ∉ (fst <$> __alias_dict__) -> field_of_tag k = name -> k = name.
Proof.
  intros Hnot Hk. destruct (field_of_tag_cases k) as [Hc|Hc]; [congruence|].
  rewrite Hk in Hc. done.
Qed.

Lemma base_not_listed (b : string) :
  b ∈ base_fields ->
  ~ (b ∈ (fst <$> __alias_dict__)) /\ field_of_tag b = b.
Proof.
  intros Hb.
  repeat (apply elem_of_cons in Hb as [->|Hb];
          [split; [refine (bool_decide_unpack _ _); vm_compute; exact I
                  |vm_compute; reflexivity]|]).
  by apply elem_of_nil in Hb.
Qed.

Lemma stands_for_base (b k : string) :
  b ∈ base_fields -> field_of_tag k = b -> k = b.
Proof.
  intros Hb. apply field_of_tag_self. by apply base_not_listed.
Qed.

(** The renaming, one key at a time. *)
Lemma use_alias_snoc (values : gmap string val) (keys : list string) (k : string) :
  use_alias values (keys ++ [k]) =
  match values !! k with
  | Some v => <[field_of_tag k := v]> (use_alias values keys)
  | None => use_alias values keys
  end.
Proof. unfold use_alias. by rewrite fold_left_app. Qed.

(** The entry under a name is that of the last key that stands for it. *)
Lemma use_alias_lookup (values : gmap string val) (keys : list string)
    (name : string) :
  use_alias values keys !! name =
  last (omap (fun k => if decide (field_of_tag k = name)
                       then values !! k else None) keys).
Proof.
  induction keys as [|k keys IH] using rev_ind; [apply lookup_empty|].
  rewrite use_alias_snoc, omap_app. cbn [omap list_omap].
  destruct (decide (field_of_tag k = name)) as [Hk|Hk].
  - destruct (values !! k) as [v|] eqn:Ev.
    + rewrite <- Hk, lookup_insert_eq. by rewrite last_snoc.
    + by rewrite app_nil_r.
  - rewrite app_nil_r.
    destruct (values !! k) as [v|]; [rewrite lookup_insert_ne by done|]; exact IH.
Qed.

Lemma use_alias_source (values : gmap string val) (keys : list string)
    (name : string) (v : val) :
  use_alias values keys !! name = Some v ->
  exists k, k ∈ keys /\ field_of_tag k = name /\ values !! k = Some v.
Proof.
  induction keys as [|k keys IH] using rev_ind.
  - unfold use_alias. cbn. by rewrite lookup_empty.
  - rewrite use_alias_snoc. intros Hv.
    assert (Hold : use_alias values keys !! name = Some v ->
                   exists k0, k0 ∈ keys ++ [k] /\ field_of_tag k0 = name /\
                              values !! k0 = Some v).
    { intros (k0 & Hin & Hk0)%IH. exists k0. split; [|exact Hk0].
      apply elem_of_app. by left. }
    destruct (values !! k) as [v0|] eqn:Ev; [|by apply Hold].
    rewrite lookup_insert in Hv. case_decide as Hk; [|by apply Hold].
    injection Hv as <-. exists k. split; [|done].
    apply elem_of_app. right. by left.
Qed.

Lemma use_alias_none (values : gmap string val) (keys : list string)
    (name : string) :
  (forall k, k ∈ keys -> field_of_tag k = name -> values !! k = None) ->
  use_alias values keys !! name = None.
Proof.
  intros Hnone. destruct (use_alias values keys !! name) as [v|] eqn:E;
    [|reflexivity].
  apply use_alias_source in E as (k & Hin & Hk & Hv).
  by rewrite (Hnone k Hin Hk) in Hv.
Qed.

(** When one key alone stands for a name, its entry is the entry under the
    name. *)
Lemma use_alias_decided (values : gmap string val) (keys : list string)
    (name tag : string) :
  field_of_tag tag = name -> tag ∈ keys ->
  (forall k, k ∈ keys -> field_of_tag k = name -> k = tag) ->
  use_alias values keys !! name = values !! tag.
Proof.
  intros Htag Hin Honly.
  destruct (values !! tag) as [v|] eqn:Ev.
  - rewrite use_alias_lookup.
    apply list_elem_of_split in Hin as (l1 & l2 & ->).
    rewrite omap_app. cbn [omap list_omap].
    rewrite decide_True by done. rewrite Ev.
    assert (Hrest : exists n, omap (fun k => if decide (field_of_tag k = name)
                                             then values !! k else None) l2
                              = replicate n v).
    { assert (Hl2 : forall k, k ∈ l2 -> field_of_tag k = name -> k = tag).
      { intros k Hk. apply Honly. apply elem_of_app. right. by right. }
      clear Honly. induction l2 as [|k l2 IH]; [by exists 0%nat|].
      destruct IH as [n Hn]; [intros k' Hk'; apply Hl2; by right|].
      cbn [omap list_omap]. case_decide as Hk.
      - rewrite (Hl2 k) by (done || by left). rewrite Ev.
        exists (S n). cbn. by rewrite <- Hn.
      - exists n. exact Hn. }
    destruct Hrest as [n ->].
    change (v :: replicate n v) with (replicate (S n) v).
    rewrite replicate_S_end.
    rewrite app_assoc. apply last_snoc.
  - apply use_alias_none. intros k Hk Hname.
    by rewrite (Honly k Hk Hname).
Qed.





Lemma Ok_inj {A : Type} (a b : A) : Ok a = Ok b -> a = b.
Proof. congruence. Qed.

Section RecordFacts.
Context {VL : Validation}.

(** What a constructed record holds: under a field, the validated entry;
    under any other name, the entry as it came. *)
Lemma new_record_Ok (kwargs : pydict) (r : gmap string val) :
  new_record kwargs = Ok r ->
  (forall field, field ∈ all_fields ->
     exists v,
       validate_field field
         (use_alias (replace_zero (content kwargs)) (order kwargs) !! field)
       = Some v /\ r !! field = Some v) /\
  (forall k, k ∉ all_fields ->
     r !! k = use_alias (replace_zero (content kwargs)) (order kwargs) !! k).
Proof.
  unfold new_record.
  destruct (forallb _ all_fields) eqn:Hall; [|discriminate].
  intros Hr%Ok_inj. subst r. split.
  - intros field Hin. rewrite forallb_forall in Hall.
    pose proof Hin as Hv.
    apply list_elem_of_In, Hall, bool_decide_eq_true_1 in Hv.
    destruct Hv as [v Hv]. exists v. split; [exact Hv|].
    apply lookup_union_Some_l.
    rewrite (lookup_tabulate
               (fun field => default None_ (validate_field field (_ !! field)))).
    rewrite bool_decide_eq_true_2 by exact Hin. by rewrite Hv.
  - intros k Hk. rewrite lookup_union_r; [reflexivity|].
    rewrite (lookup_tabulate
               (fun field => default None_ (validate_field field (_ !! field)))).
    by rewrite bool_decide_eq_false_2.
Qed.

(** The constructor returns exactly when every field is accepted. *)
Lemma new_record_returns (kwargs : pydict) :
  (forall field, field ∈ all_fields ->
     is_Some (validate_field field
                (use_alias (replace_zero (content kwargs)) (order kwargs)
                   !! field))) ->
  exists r, new_record kwargs = Ok r.
Proof.
  intros Hall. unfold new_record.
  rewrite (proj2 (forallb_forall _ _)); [by eexists|].
  intros field Hin%list_elem_of_In. apply bool_decide_eq_true_2. by apply Hall.
Qed.

Lemma new_record_Raise (kwargs : pydict) (e : exn) :
  new_record kwargs = Raise e -> e = ValidationError.
Proof. unfold new_record. destruct (forallb _ _); congruence. Qed.


End RecordFacts.

(* ===================================================================== *)
(** ** Validation of a field                                             *)
(* ===================================================================== *)

Lemma declared_field_names :
  forallb (fun field =>
             negb (String.eqb field "period_ending") &&
             negb (String.eqb field "fiscal_year") &&
             negb (String.eqb field "fiscal_period"))
          declared_fields = true.
Proof. vm_compute. reflexivity. Qed.

Lemma declared_not_base (field : string) :
  field ∈ declared_fields ->
  field <> "period_ending" /\ field <> "fiscal_year" /\ field <> "fiscal_period".
Proof.
  intros Hin. pose proof declared_field_names as Hall.
  rewrite forallb_forall in Hall.
  apply list_elem_of_In, Hall in Hin.
  apply andb_prop in Hin as [Hin H3]. apply andb_prop in Hin as [H1 H2].
  repeat split; intros ->; discriminate.
Qed.

Lemma not_base_fields (k : string) :
  k ∉ base_fields <->
  k <> "period_ending" /\ k <> "fiscal_year" /\ k <> "fiscal_period".
Proof.
  unfold base_fields. rewrite !not_elem_of_cons.
  pose proof (not_elem_of_nil k). tauto.
Qed.

Lemma declared_not_in_base (field : string) :
  field ∈ declared_fields -> field ∉ base_fields.
Proof. intros Hin. apply not_base_fields. by apply declared_not_base. Qed.


Section FieldFacts.
Context {VL : Validation}.

Lemma validate_declared (field : string) (input : option val) :
  field ∈ declared_fields ->
  validate_field field input =
  match input with
  | None => Some None_
  | Some v => optional_int v
  end.
Proof.
  intros (N1 & _ & N3)%declared_not_base. unfold validate_field.
  apply String.eqb_neq in N1, N3. by rewrite N1, N3.
Qed.

Lemma validate_period_ending (v : val) :
  validate_field "period_ending" (Some v) =
  match v with
  | None_ => None
  | _ => to_date v
  end.
Proof. by destruct v. Qed.

Lemma optional_str_Some (v w : val) : optional_str v = Some w -> w = v.
Proof. destruct v; cbn; congruence. Qed.



End FieldFacts.

(* ===================================================================== *)
(** ** Transformation                                                    *)
(* ===================================================================== *)

Section TransformationFacts.
Context `{Runtime} {VL : Validation} {BQ : BaseQuery}.

Lemma falsy_of_zero (v : val) : eq_zero v = true -> falsy v = true.
Proof.
  unfold falsy. destruct v as [|b|z|f|s|l|d]; cbn; try discriminate.
  - by destruct b.
  - by intros ->.
  - by destruct f.
Qed.




Lemma coerce_coerced (value x : val) : coerce value = Ok x -> coerced x = true.
Proof.
  unfold coerce. destruct (_ && _); [|by intros [= <-]].
  destruct (float value); cbn; [by intros [= <-]|discriminate].
Qed.

Lemma item_tag_Some (sub_item : val) (tag : string) :
  item_tag sub_item = Some tag ->
  exists d, getitem sub_item "data_tag" = Ok d /\ getitem d "tag" = Ok (Str tag).
Proof.
  unfold item_tag, mbind, result_bind.
  destruct (getitem sub_item "data_tag") as [d|]; [|discriminate].
  destruct (getitem d "tag") as [[]|] eqn:E; try discriminate.
  intros [= <-]. by exists d.
Qed.





Lemma line_items_app (l1 l2 : list val) : forall acc,
  line_items (l1 ++ l2) acc = line_items l1 acc ≫= line_items l2.
Proof.
  induction l1 as [|x l1 IH]; intros acc; [reflexivity|].
  cbn [app line_items]. unfold mbind, result_bind.
  destruct (line_item acc x); [apply IH|reflexivity].
Qed.


(** The keys of the working dict: those it had and the tags of the line
    items. *)
Lemma line_item_order acc acc' (sub_item : val) (k : string) :
  line_item acc sub_item = Ok acc' ->
  k ∈ order (fst acc') <-> k ∈ order (fst acc) \/ item_tag sub_item = Some k.
Proof.
  unfold line_item, item_tag, mbind, result_bind.
  destruct (getitem sub_item "data_tag") as [d|]; [|discriminate].
  destruct (getitem d "tag") as [name|]; [|discriminate].
  destruct (getitem sub_item "value") as [value|]; [|discriminate].
  destruct (coerce value) as [x|]; [|discriminate].
  destruct name; try discriminate; intros [= <-]; cbn [fst];
    try (split; [by left|by intros [?|?]]).
  rewrite elem_of_order_insert. split.
  - intros [->|?]; [by right|by left].
  - intros [?|[= ->]]; [by right|by left].
Qed.

Lemma line_items_order (items : list val) (k : string) : forall acc acc',
  line_items items acc = Ok acc' ->
  k ∈ order (fst acc') <->
  k ∈ order (fst acc) \/
  Exists (fun sub_item => item_tag sub_item = Some k) items.
Proof.
  induction items as [|sub_item items IH]; intros acc acc'; cbn [line_items].
  - intros [= <-]. rewrite Exists_nil. tauto.
  - unfold mbind, result_bind.
    destruct (line_item acc sub_item) as [acc1|] eqn:E1; [|discriminate].
    intros Hrest.
    rewrite (IH _ _ Hrest), (line_item_order _ _ _ _ E1), Exists_cons. tauto.
Qed.

(** Every entry of the working dict is [None] or a float. *)
Lemma line_item_coerced acc acc' (sub_item : val) :
  line_item acc sub_item = Ok acc' ->
  (forall k v, fst acc !! k = Some v -> coerced v = true) ->
  forall k v, fst acc' !! k = Some v -> coerced v = true.
Proof.
  unfold line_item, mbind, result_bind.
  destruct (getitem sub_item "data_tag") as [d|]; [|discriminate].
  destruct (getitem d "tag") as [name|]; [|discriminate].
  destruct (getitem sub_item "value") as [value|]; [|discriminate].
  destruct (coerce value) as [x|] eqn:Ex; [|discriminate].
  destruct name; try discriminate; intros [= <-] Hinv k v; cbn [fst];
    try apply Hinv.
  rewrite pydict_lookup_insert. case_decide; [|apply Hinv].
  intros [= <-]. exact (coerce_coerced _ _ Ex).
Qed.

Lemma line_items_coerced (items : list val) : forall acc acc',
  line_items items acc = Ok acc' ->
  (forall k v, fst acc !! k = Some v -> coerced v = true) ->
  forall k v, fst acc' !! k = Some v -> coerced v = true.
Proof.
  induction items as [|sub_item items IH]; intros acc acc'; cbn [line_items].
  - by intros [= <-].
  - unfold mbind, result_bind.
    destruct (line_item acc sub_item) as [acc1|] eqn:E1; [|discriminate].
    intros Hrest Hinv. apply (IH _ _ Hrest).
    exact (line_item_coerced _ _ _ E1 Hinv).
Qed.

Lemma transform_item_Ok q item r :
  transform_item q item = Ok r ->
  exists items sub_dict,
    iter (st_financials item) = Ok items /\
    line_items items (∅, false) = Ok (sub_dict, false) /\
    new_record (keyword_arguments q item sub_dict) = Ok r.
Proof.
  unfold transform_item, mbind, result_bind.
  destruct (iter (st_financials item)) as [items|]; [|discriminate].
  destruct (line_items items (∅, false)) as [[sub_dict stray]|] eqn:E;
    [|discriminate].
  destruct stray; [discriminate|]. intros Hr.
  exists items, sub_dict. split; [reflexivity|]. split; [exact E|exact Hr].
Qed.

Lemma keyword_arguments_other q item (sub_dict : pydict) (k : string) :
  k ∉ base_fields ->
  keyword_arguments q item sub_dict !! k = sub_dict !! k.
Proof.
  intros (N1 & N2 & N3)%not_base_fields. unfold keyword_arguments.
  destruct (_ && _); by rewrite !pydict_lookup_insert_ne.
Qed.

Lemma keyword_arguments_order q item (sub_dict : pydict) (k : string) :
  k ∈ order (keyword_arguments q item sub_dict) <->
  k ∈ base_fields \/ k ∈ order sub_dict.
Proof.
  unfold keyword_arguments, base_fields.
  destruct (_ && _); rewrite !elem_of_order_insert, !elem_of_cons, elem_of_nil;
    tauto.
Qed.

Lemma keyword_arguments_base q item (sub_dict : pydict) :
  keyword_arguments q item sub_dict !! "period_ending"
    = Some (st_period_ending item) /\
  keyword_arguments q item sub_dict !! "fiscal_year"
    = Some (st_fiscal_year item) /\
  keyword_arguments q item sub_dict !! "fiscal_period"
    = Some (if String.eqb (period q) "QTR" && is_str (st_fiscal_period item) "FY"
            then Str "Q4" else st_fiscal_period item).
Proof.
  unfold keyword_arguments.
  destruct (_ && _); rewrite !pydict_lookup_insert; repeat case_decide; done.
Qed.

(** The entry under a field of the base class is the statement's own. *)
Lemma renamed_base q item (sub_dict : pydict) (b : string) :
  b ∈ base_fields ->
  use_alias (replace_zero (content (keyword_arguments q item sub_dict)))
            (order (keyword_arguments q item sub_dict)) !! b
  = unset_zero <$> keyword_arguments q item sub_dict !! b.
Proof.
  intros Hb. destruct (base_not_listed b Hb) as [Hnot Hself].
  rewrite (use_alias_decided _ _ b b Hself).
  - by rewrite replace_zero_lookup.
  - apply keyword_arguments_order. by left.
  - intros k _. by apply field_of_tag_self.
Qed.

(** The three entries a statement carries of its own, in the record. *)
Lemma record_statement_fields q item r :
  transform_item q item = Ok r ->
  validate_field "period_ending" (Some (unset_zero (st_period_ending item)))
    = r !! "period_ending" /\
  validate_field "fiscal_year" (Some (unset_zero (st_fiscal_year item)))
    = r !! "fiscal_year" /\
  r !! "fiscal_period" =
    Some (if String.eqb (period q) "QTR" && is_str (st_fiscal_period item) "FY"
          then Str "Q4" else unset_zero (st_fiscal_period item)) /\
  is_Some (r !! "period_ending") /\ is_Some (r !! "fiscal_year") /\
  is_Some (validate_field "fiscal_period"
             (Some (unset_zero (st_fiscal_period item)))).
Proof.
  intros (items & sub_dict & _ & _ & Hr)%transform_item_Ok.
  apply new_record_Ok in Hr as [Hfields _].
  destruct (keyword_arguments_base q item sub_dict) as (E1 & E2 & E3).
  assert (Hbase : forall b, b ∈ base_fields ->
            exists v,
              validate_field b
                (unset_zero <$> keyword_arguments q item sub_dict !! b) = Some v
              /\ r !! b = Some v).
  { intros b Hb. destruct (Hfields b) as (v & Hv & Hrb);
      [apply elem_of_app; by left|].
    rewrite renamed_base in Hv by exact Hb. by exists v. }
  destruct (Hbase "period_ending") as (v1 & Hv1 & Hr1); [repeat constructor|].
  destruct (Hbase "fiscal_year") as (v2 & Hv2 & Hr2); [repeat constructor|].
  destruct (Hbase "fiscal_period") as (v3 & Hv3 & Hr3); [repeat constructor|].
  rewrite E1 in Hv1. rewrite E2 in Hv2. rewrite E3 in Hv3.
  cbn [fmap option_fmap option_map] in Hv1, Hv2, Hv3.
  rewrite Hr1, Hr2, Hr3, <- Hv1, <- Hv2.
  split; [reflexivity|]. split; [reflexivity|].
  change (optional_str
            (unset_zero (if String.eqb (period q) "QTR" &&
                            is_str (st_fiscal_period item) "FY"
                         then Str "Q4" else st_fiscal_period item))
          = Some v3) in Hv3.
  split; [|split; [by rewrite Hv1|split; [by rewrite Hv2|]]].
  - f_equal. apply optional_str_Some in Hv3. rewrite Hv3.
    by destruct (_ && _).
  - change (is_Some (optional_str (unset_zero (st_fiscal_period item)))).
    destruct (String.eqb (period q) "QTR"); cbn [andb] in Hv3;
      [|by rewrite Hv3].
    destruct (is_str (st_fiscal_period item) "FY") eqn:Efy;
      [|by rewrite Hv3].
    destruct (st_fiscal_period item); try discriminate Efy. by eexists.
Qed.

(** An entry under a name that is no field of the base class comes from a
    line item: it is what the inner loop stored, and it is not zero. *)
Lemma renamed_source q item (items : list val) (sub_dict : pydict)
    (stray : bool) (name : string) (w : val) :
  line_items items (∅, false) = Ok (sub_dict, stray) ->
  name ∉ base_fields ->
  use_alias (replace_zero (content (keyword_arguments q item sub_dict)))
            (order (keyword_arguments q item sub_dict)) !! name = Some w ->
  eq_zero w = false /\ coerced w = true /\
  exists k, Exists (fun sub_item => item_tag sub_item = Some k) items /\
            field_of_tag k = name.
Proof.
  intros Hitems Hname (k & Hk & Hstands & Hw)%use_alias_source.
  split; [exact (replace_zero_nonzero _ _ _ Hw)|].
  assert (Hkb : k ∉ base_fields).
  { intros Hin. apply Hname. rewrite <- Hstands.
    by rewrite (proj2 (base_not_listed k Hin)). }
  rewrite replace_zero_lookup, <- pydict_lookup_content in Hw.
  rewrite keyword_arguments_other in Hw by exact Hkb.
  destruct (sub_dict !! k) as [w0|] eqn:Ew0; [|discriminate Hw].
  pose proof (line_items_coerced items _ _ Hitems
                ltac:(intros k0 v0; cbn [fst]; by rewrite pydict_lookup_empty)
                k w0 Ew0) as Hc.
  injection Hw as <-. split; [by destruct (eq_zero w0)|].
  exists k. split; [|exact Hstands].
  apply keyword_arguments_order in Hk as [Hk|Hk]; [done|].
  apply (line_items_order _ k _ _ Hitems) in Hk as [Hk|Hk];
    [by apply elem_of_nil in Hk|exact Hk].
Qed.

(** A declared field no line item stands for is unset. *)
Lemma record_field_absent q item r (field : string) (items : list val) :
  transform_item q item = Ok r ->
  field ∈ declared_fields ->
  iter (st_financials item) = Ok items ->
  Forall (fun sub_item => stands_for field sub_item = false) items ->
  r !! field = Some None_.
Proof.
  intros (items' & sub_dict & Hiter & Hitems & Hr)%transform_item_Ok
         Hdecl Hiter' Hnone.
  rewrite Hiter' in Hiter. apply Ok_inj in Hiter. subst items'.
  apply new_record_Ok in Hr as [Hfields _].
  destruct (Hfields field) as (v & Hval & Hlook);
    [apply elem_of_app; by right|].
  rewrite validate_declared in Hval by exact Hdecl.
  destruct (use_alias _ _ !! field) as [w|] eqn:Ew;
    [|rewrite Hlook; by rewrite <- Hval].
  destruct (renamed_source q item items sub_dict false field w Hitems
              (declared_not_in_base field Hdecl) Ew)
    as (_ & _ & k & Hk & Hstands).
  apply Exists_exists in Hk as (it & Hin & Hit).
  rewrite Forall_forall in Hnone. specialize (Hnone it Hin).
  unfold stands_for in Hnone. rewrite Hit, Hstands in Hnone.
  by rewrite String.eqb_refl in Hnone.
Qed.





(** Claim C3. For a query constructed with period [quarter], a statement
    whose fiscal period is [FY] is transformed to a record whose fiscal
    period is [Q4]; for a query constructed with period [annual], the
    record keeps [FY]. *)
Theorem quarterly_fy_is_q4 params q item r :
  transform_query params = Ok q ->
  st_fiscal_period item = Str "FY" ->
  transform_item q item = Ok r ->
  (kw_period params = Some (Str "quarter") ->
     r !! "fiscal_period" = Some (Str "Q4")) /\
  (kw_period params = Some (Str "annual") ->
     r !! "fiscal_period" = Some (Str "FY")).
Proof.
  intros Hq Hfy Hr.
  destruct (record_statement_fields q item r Hr) as (_ & _ & -> & _).
  unfold transform_query, new_query, mbind, result_bind in Hq.
  rewrite Hfy. cbn [is_str].
  split; intros Hp; rewrite Hp in Hq; cbn in Hq;
    (destruct (limit_field _); [|discriminate]); injection Hq as <-;
    reflexivity.
Qed.








End TransformationFacts.

Ltac name_record t :=
  let Hok := fresh "Hok" in
  assert (Hok : returned t = true) by (vm_compute; reflexivity);
  let r := fresh "r" in
  let Hr := fresh "Hr" in
  destruct t as [r|] eqn:Hr; [|discriminate Hok];
  exists r; split; [reflexivity|].







Lemma quarterly_fy_is_q4_witness :
  exists r,
    transform_item (H := demo_runtime) (VL := demo_validation)
      demo_quarterly demo_statement = Ok r /\
    r !! "fiscal_period" = Some (Str "Q4").
Proof.
  name_record (transform_item (H := demo_runtime) (VL := demo_validation)
                 demo_quarterly demo_statement).
  apply (quarterly_fy_is_q4 (H := demo_runtime) (VL := demo_validation)
           (BQ := demo_base)
           {| kw_symbol := "BRK-B"; kw_period := Some (Str "quarter");
              kw_fiscal_year := None; kw_limit := 2 |}
           demo_quarterly demo_statement r);
    [reflexivity|reflexivity|exact Hr|reflexivity].
Defined.



(** The first pass alone does not keep every zero out: a string that reads
    as zero is truthy and differs from [0], so its float is stored; the
    second pass unsets it. *)
Example second_pass_needed :
  coerce (H := demo_runtime) (Str "0") = Ok (Float (S754_zero false)) /\
  (r ← transform_item (H := demo_runtime) (VL := demo_validation)
         demo_query demo_statement;
   Ok (r !! "plant_property_equipment_net")) = Ok (Some None_).
Proof. split; vm_compute; reflexivity. Qed.

(* ===================================================================== *)
(** ** Coercion of a raw value, zero replacement, alias table *)
(* ===================================================================== *)

Section CoercionFacts.
Context `{Runtime}.

Lemma truthy_not_zero (v : val) : truthy v = true -> eq_zero v = false.
Proof.
  destruct (eq_zero v) eqn:Hz; [|reflexivity].
  apply falsy_of_zero in Hz. unfold falsy in Hz. intros Ht.
  rewrite Ht in Hz. discriminate.
Qed.

(** Property X1. The test [value != 0] decides nothing: the coercion is a
    test of truthiness. *)
Theorem coerce_truthiness (value : val) :
  coerce value = if truthy value then Float <$> float value else Ok None_.
Proof.
  unfold coerce, ne_zero. destruct (truthy value) eqn:Ht; [|reflexivity].
  by rewrite (truthy_not_zero _ Ht).
Qed.

(** Property X2. A float is kept as it is unless it is a zero of either
    sign: a NaN and the infinities are stored. *)
Theorem coerce_float (f : spec_float) :
  coerce (Float f) =
  Ok (match f with S754_zero _ => None_ | _ => Float f end) /\
  coerce (Float S754_nan) = Ok (Float S754_nan) /\
  (forall s, coerce (Float (S754_infinity s)) = Ok (Float (S754_infinity s))) /\
  (forall s, coerce (Float (S754_zero s)) = Ok None_).
Proof. repeat split; try by destruct f. Qed.

(** Property X3. The coercion raises in three cases only: a non-empty list
    or dict, a non-empty string that does not read as a float, a non-zero
    int out of the range of a float. *)
Theorem coerce_raises (value : val) (e : exn) :
  coerce value = Raise e ->
  (e = TypeError /\
   ((exists l, value = List l /\ l <> []) \/
    (exists d, value = Dict d /\ d <> []))) \/
  (e = ValueError /\
   exists s, value = Str s /\ s <> "" /\ float_of_str s = None) \/
  (e = OverflowError /\
   exists z, value = Int z /\ z <> 0 /\ int_to_float z = Raise OverflowError).
Proof.
  rewrite coerce_truthiness.
  destruct value as [|b|z|f|s|l|d]; cbn [truthy float].
  - discriminate.
  - destruct b; [|discriminate].
    assert (Hone : int_to_float 1
                   = Ok (S754_finite false 4503599627370496 (-52)))
      by (vm_compute; reflexivity).
    rewrite Hone. discriminate.
  - destruct (Z.eqb_spec z 0) as [->|Hz]; cbn [negb]; [discriminate|].
    destruct (int_to_float z) as [f|e'] eqn:Ef; cbn; [discriminate|].
    intros [= <-]. right; right.
    assert (e' = OverflowError) as ->.
    { unfold int_to_float in Ef.
      destruct (binary_normalize _ _ _ _ _); congruence. }
    split; [reflexivity|]. by exists z.
  - destruct f; cbn; discriminate.
  - destruct (String.eqb_spec s "") as [->|Hs]; cbn [negb]; [discriminate|].
    destruct (float_of_str s) eqn:Ep; cbn; [discriminate|].
    intros [= <-]. right; left. split; [reflexivity|]. by exists s.
  - destruct l as [|x l]; [discriminate|]. cbn. intros [= <-].
    left. split; [reflexivity|]. left. by eexists.
  - destruct d as [|x d]; [discriminate|]. cbn. intros [= <-].
    left. split; [reflexivity|]. right. by eexists.
Qed.
End CoercionFacts.

Lemma coerce_raises_witness :
  (exists s, Str "n/a" = Str s /\ s <> "" /\
             float_of_str (Runtime := demo_runtime) s = None).
Proof.
  destruct (coerce_raises (H := demo_runtime) (Str "n/a") ValueError)
    as [[Habs _]|[[_ Hs]|[Habs _]]];
    [vm_compute; reflexivity|discriminate Habs|exact Hs|discriminate Habs].
Defined.

(** Property X4. [replace_zero] keeps the keys, changes a value only when it
    equals zero, and applying it a second time changes nothing. *)
Theorem replace_zero_idempotent (values : gmap string val) :
  replace_zero (replace_zero values) = replace_zero values /\
  dom (replace_zero values) = dom values /\
  (forall k v, values !! k = Some v -> eq_zero v = false ->
               replace_zero values !! k = Some v) /\
  (forall k v, values !! k = Some v -> eq_zero v = true ->
               replace_zero values !! k = Some None_).
Proof.
  split; [|split; [|split]].
  - apply map_eq. intros k. rewrite !replace_zero_lookup.
    destruct (values !! k) as [v|]; [|reflexivity]. cbn.
    destruct (eq_zero v) eqn:Hz; cbn; [reflexivity|by rewrite Hz].
  - unfold replace_zero. apply dom_fmap_L.
  - intros k v Hk Hz. rewrite replace_zero_lookup, Hk. cbn. by rewrite Hz.
  - intros k v Hk Hz. rewrite replace_zero_lookup, Hk. cbn. by rewrite Hz.
Qed.

Lemma replace_zero_idempotent_witness :
  replace_zero {[ "goodwill" := Bool false ]} !! "goodwill" = Some None_ /\
  replace_zero {[ "goodwill" := Float S754_nan ]} !! "goodwill"
    = Some (Float S754_nan).
Proof.
  split.
  - apply (proj2 (proj2 (proj2 (replace_zero_idempotent _))) _ (Bool false));
      [apply lookup_singleton_eq|reflexivity].
  - apply (proj1 (proj2 (proj2 (replace_zero_idempotent _))));
      [apply lookup_singleton_eq|reflexivity].
Defined.

Lemma alias_of_elem (table : list (string * string)) (field tag : string) :
  alias_of table field = Some tag -> (field, tag) ∈ table.
Proof.
  induction table as [|[name t] table IH]; [discriminate|].
  cbn [alias_of]. destruct (String.eqb_spec field name) as [->|_].
  - intros [= ->]. by left.
  - intros Hrest. right. by apply IH.
Qed.

Lemma NoDup_snd_injective (table : list (string * string)) (f1 f2 tag : string) :
  NoDup (snd <$> table) ->
  (f1, tag) ∈ table -> (f2, tag) ∈ table -> f1 = f2.
Proof.
  induction table as [|[name t] table IH]; [by intros _ ?%elem_of_nil|].
  rewrite fmap_cons. cbn [snd]. intros [Hnot Hnd]%NoDup_cons.
  intros [E1|H1]%elem_of_cons [E2|H2]%elem_of_cons.
  - congruence.
  - simplify_eq. destruct Hnot.
    apply list_elem_of_fmap. eexists. split; [|exact H2]. reflexivity.
  - simplify_eq. destruct Hnot.
    apply list_elem_of_fmap. eexists. split; [|exact H1]. reflexivity.
  - by apply IH.
Qed.

(** Property X5. The alias table is one-to-one: no vendor tag is the alias
    of two fields. Every name it lists is a declared field but one,
    [bankers_acceptance_out_standing]; the declared field
    [bankers_acceptance_outstanding] has no alias. *)
Theorem alias_table_one_to_one :
  (forall f1 f2 tag,
     alias_of __alias_dict__ f1 = Some tag ->
     alias_of __alias_dict__ f2 = Some tag -> f1 = f2) /\
  (forall f tag,
     alias_of __alias_dict__ f = Some tag ->
     f ∈ declared_fields \/ f = "bankers_acceptance_out_standing") /\
  ("bankers_acceptance_out_standing" ∉ declared_fields) /\
  ("bankers_acceptance_outstanding" ∈ declared_fields) /\
  alias_of __alias_dict__ "bankers_acceptance_outstanding" = None.
Proof.
  split; [|split; [|split; [|split]]].
  - intros f1 f2 tag H1%alias_of_elem H2%alias_of_elem.
    apply (NoDup_snd_injective __alias_dict__ f1 f2 tag); [|done..].
    refine (bool_decide_unpack _ _). vm_compute. exact I.
  - intros f tag Hf%alias_of_elem.
    assert (Hall : Forall (fun entry : string * string =>
                             fst entry ∈ declared_fields \/
                             fst entry = "bankers_acceptance_out_standing")
                          __alias_dict__).
    { refine (bool_decide_unpack _ _). vm_compute. exact I. }
    rewrite Forall_forall in Hall. exact (Hall _ Hf).
  - refine (bool_decide_unpack _ _). vm_compute. exact I.
  - refine (bool_decide_unpack _ _). vm_compute. exact I.
  - reflexivity.
Qed.

Lemma alias_table_one_to_one_witness :
  "total_assets" ∈ declared_fields \/
  "total_assets" = "bankers_acceptance_out_standing".
Proof.
  exact (proj1 (proj2 alias_table_one_to_one) "total_assets" "totalassets"
           eq_refl).
Defined.

(* ===================================================================== *)
(** ** Query construction, again; the response callback *)
(* ===================================================================== *)

Lemma replace_fixed (c new : ascii) (s : string) :
  new <> c ->
  replace c (String new EmptyString)
    (replace c (String new EmptyString) s) =
  replace c (String new EmptyString) s.
Proof.
  intros Hne. induction s as [|a s IH]; [reflexivity|].
  cbn [replace]. destruct (Ascii.eqb_spec a c) as [->|Hac].
  - change (String new EmptyString +:+ ?x) with (String new x).
    cbn [replace]. destruct (Ascii.eqb_spec new c) as [|_]; [done|].
    by rewrite IH.
  - cbn [replace]. destruct (Ascii.eqb_spec a c) as [|_]; [done|].
    by rewrite IH.
Qed.

Section QueryAgain.
Context {BQ : BaseQuery}.

(** Property X6. Normalizing a symbol twice is normalizing it once, and a
    query built from the symbol of a built query has that same symbol. *)
Theorem handle_symbol_idempotent (s : string) :
  handle_symbol (handle_symbol s) = handle_symbol s /\
  (forall params q q',
     transform_query params = Ok q ->
     kw_symbol params = s ->
     transform_query {| kw_symbol := symbol q;
                        kw_period := kw_period params;
                        kw_fiscal_year := kw_fiscal_year params;
                        kw_limit := kw_limit params |} = Ok q' ->
     symbol q' = symbol q).
Proof.
  assert (Hidem : forall s, handle_symbol (handle_symbol s) = handle_symbol s).
  { intros s0. unfold handle_symbol. apply replace_fixed. discriminate. }
  split; [apply Hidem|].
  intros params q q'. unfold transform_query, new_query, mbind, result_bind.
  cbn [kw_symbol kw_period kw_fiscal_year kw_limit].
  destruct (period_field _); [|discriminate].
  destruct (limit_field _); [|discriminate].
  intros [= <-] <- [= <-]. cbn [symbol].
  rewrite base_symbol_settled. apply Hidem.
Qed.

(** Property X7. What construction makes of a period is not a period it
    accepts: the period of a built query, given back as the [period]
    argument, is refused. *)
Theorem normalized_period_refused (params : Params) (v : val) (q : QueryParams) :
  kw_period params = Some v ->
  transform_query params = Ok q ->
  (period q = "FY" \/ period q = "QTR") /\
  transform_query (params_of_query q) = Raise ValidationError.
Proof.
  intros Hv. unfold transform_query, new_query, mbind, result_bind.
  rewrite Hv. destruct v as [|b|z|f|s|l|d]; try discriminate.
  cbn [period_field].
  destruct (String.eqb_spec s "annual") as [->|_]; cbn [orb].
  - destruct (limit_field _); [|discriminate]. intros [= <-].
    split; [by left|reflexivity].
  - destruct (String.eqb_spec s "quarter") as [->|_]; [|discriminate].
    destruct (limit_field _); [|discriminate]. intros [= <-].
    split; [by right|reflexivity].
Qed.

End QueryAgain.

Lemma handle_symbol_idempotent_witness :
  symbol demo_query = symbol demo_query /\
  handle_symbol (handle_symbol "BRK-B") = handle_symbol "BRK-B".
Proof.
  split.
  - exact (proj2 (handle_symbol_idempotent (BQ := demo_base) "BRK-B")
             demo_params demo_query demo_query eq_refl eq_refl eq_refl).
  - exact (proj1 (handle_symbol_idempotent (BQ := demo_base) "BRK-B")).
Defined.

Lemma normalized_period_refused_witness :
  transform_query (BQ := demo_base) (params_of_query demo_query)
  = Raise ValidationError.
Proof.
  exact (proj2 (normalized_period_refused (BQ := demo_base) demo_params
                  (Str "annual") demo_query eq_refl eq_refl)).
Defined.

Section DefaultPeriod.
Context `{Runtime} {VL : Validation} {BQ : BaseQuery}.

(** Property X8. A query built without a period keeps the default [annual]
    as it is: the listing request asks for [type=annual], not [type=FY], and
    an [FY] statement keeps its fiscal period. *)
Theorem default_period_not_normalized (params : Params) (q : QueryParams) :
  kw_period params = None ->
  transform_query params = Ok q ->
  period q = "annual" /\
  (forall api_key,
     fiscal_year q = None ->
     listing_url q api_key =
     (base_url +:+ "/companies/" +:+ symbol q +:+ "/fundamentals?"
        +:+ "statement_code=" +:+ statement_code +:+ "&type=" +:+ "annual")
       +:+ "&api_key=" +:+ str api_key) /\
  (forall item r,
     st_fiscal_period item = Str "FY" ->
     transform_item q item = Ok r ->
     r !! "fiscal_period" = Some (Str "FY")).
Proof.
  intros Hp. unfold transform_query, new_query, mbind, result_bind.
  rewrite Hp. cbn [period_field].
  destruct (limit_field _); [|discriminate]. intros [= <-].
  split; [reflexivity|]. split.
  - intros api_key. unfold listing_url. cbn [fiscal_year symbol period].
    by intros ->.
  - intros item r Hfy Hr.
    destruct (record_statement_fields _ item r Hr) as (_ & _ & -> & _).
    by rewrite Hfy.
Qed.
End DefaultPeriod.

Lemma default_period_not_normalized_witness :
  exists q,
    transform_query (BQ := demo_base)
      {| kw_symbol := "BRK-B"; kw_period := None;
         kw_fiscal_year := None; kw_limit := 2 |} = Ok q /\
    period q = "annual".
Proof.
  exists {| symbol := "BRK.B"; period := "annual"; fiscal_year := None;
            limit := 2 |}.
  split; [reflexivity|].
  exact (proj1 (default_period_not_normalized (H := demo_runtime)
                  (VL := demo_validation) (BQ := demo_base)
                  {| kw_symbol := "BRK-B"; kw_period := None;
                     kw_fiscal_year := None; kw_limit := 2 |}
                  {| symbol := "BRK.B"; period := "annual";
                     fiscal_year := None; limit := 2 |}
                  eq_refl eq_refl)).
Defined.

(** Property X9. [callback] returns exactly when the body has the object
    [fundamental] with its three keys and the key [standardized_financials],
    and then its four entries are those four values; otherwise it raises
    [KeyError] or [TypeError] and nothing else. *)
Theorem callback_outcome (body : val) :
  (forall st,
     callback body = Ok st <->
     exists fundamental,
       getitem body "fundamental" = Ok fundamental /\
       getitem fundamental "end_date" = Ok (st_period_ending st) /\
       getitem fundamental "fiscal_year" = Ok (st_fiscal_year st) /\
       getitem fundamental "fiscal_period" = Ok (st_fiscal_period st) /\
       getitem body "standardized_financials" = Ok (st_financials st)) /\
  (forall e, callback body = Raise e -> e = KeyError \/ e = TypeError) /\
  (forall entries,
     body = Dict entries -> assoc "fundamental" entries = None ->
     callback body = Raise KeyError) /\
  ((forall entries, body <> Dict entries) -> callback body = Raise TypeError).
Proof.
  split; [|split; [|split]].
  - intros st. unfold callback, mbind, result_bind. split.
    + destruct (getitem body "fundamental") as [fu|]; [|discriminate].
      destruct (getitem fu "end_date") as [a|] eqn:Ea; [|discriminate].
      destruct (getitem fu "fiscal_year") as [b|] eqn:Eb; [|discriminate].
      destruct (getitem fu "fiscal_period") as [c|] eqn:Ec; [|discriminate].
      destruct (getitem body "standardized_financials") as [d|];
        [|discriminate].
      intros [= <-]. exists fu. by repeat split.
    + intros (fu & -> & -> & -> & -> & ->). by destruct st.
  - intros e. apply callback_Raise.
  - intros entries -> Hnone. unfold callback, mbind, result_bind.
    cbn [getitem]. by rewrite Hnone.
  - intros Hnot. destruct body; try reflexivity. by destruct (Hnot d).
Qed.

Lemma callback_outcome_witness :
  callback (Dict [("standardized_financials", List [])]) = Raise KeyError.
Proof.
  exact (proj1 (proj2 (proj2 (callback_outcome
                                (Dict [("standardized_financials", List [])]))))
           [("standardized_financials", List [])] eq_refl eq_refl).
Defined.

(* ===================================================================== *)
(** ** Transformation: what a record holds and when there is none *)
(* ===================================================================== *)

Section TransformationEdges.
Context `{Runtime} {VL : Validation}.

(** Property X10. The period end date and the fiscal year of a record are
    what the validation makes of the statement's own: the date it reads
    from the statement's period end date, the integer it reads from the
    statement's fiscal year, unset when that equals zero. A line item
    tagged [period_ending] or [fiscal_year] never decides them. A statement
    whose period end date is [None] or equals zero is transformed to no
    record. *)
Theorem statement_fields_win q item r :
  transform_item q item = Ok r ->
  r !! "period_ending" = to_date (st_period_ending item) /\
  is_Some (r !! "period_ending") /\
  st_period_ending item <> None_ /\
  eq_zero (st_period_ending item) = false /\
  r !! "fiscal_year" = optional_int (unset_zero (st_fiscal_year item)) /\
  is_Some (r !! "fiscal_year").
Proof.
  intros Hr.
  destruct (record_statement_fields q item r Hr)
    as (Hdate & Hyear & _ & Hsome & Hsome' & _).
  rewrite <- Hdate in Hsome. rewrite <- Hdate, <- Hyear.
  rewrite validate_period_ending in *. unfold unset_zero in *.
  destruct (eq_zero (st_period_ending item)) eqn:Hz;
    [by destruct Hsome|].
  destruct (st_period_ending item) eqn:Hd; try (by destruct Hsome);
    (repeat split; [exact Hsome|discriminate|by rewrite Hyear]).
Qed.

(** Property X11. The fiscal period of a record: [Q4] when the query period
    is [QTR] and the statement says [FY]; the statement's own token
    otherwise, whatever the line items say. A token other than [FY] is never
    rewritten. *)
Theorem fiscal_period_of_record q item r :
  transform_item q item = Ok r ->
  r !! "fiscal_period" =
    Some (if String.eqb (period q) "QTR" && is_str (st_fiscal_period item) "FY"
          then Str "Q4"
          else unset_zero (st_fiscal_period item)) /\
  (forall token, st_fiscal_period item = Str token -> token <> "FY" ->
                 r !! "fiscal_period" = Some (Str token)).
Proof.
  intros Hr.
  destruct (record_statement_fields q item r Hr) as (_ & _ & -> & _).
  split; [reflexivity|].
  intros token -> Hne. cbn [is_str].
  destruct (String.eqb_spec token "FY") as [|_]; [done|].
  by rewrite andb_false_r.
Qed.

(** Property X12. Transformation reads one thing of the query: whether its
    period is [QTR]. The symbol, the fiscal year and the limit do not
    matter, and the clamp of extraction changes nothing. *)
Theorem transform_item_reads_period q q' item :
  (String.eqb (period q) "QTR" = String.eqb (period q') "QTR" ->
   transform_item q item = transform_item q' item) /\
  transform_item (after_extraction q) item = transform_item q item /\
  (forall data, transform_data (after_extraction q) data = transform_data q data).
Proof.
  assert (Hgen : forall a b it, String.eqb (period a) "QTR" = String.eqb (period b) "QTR" ->
                                transform_item a it = transform_item b it).
  { intros a b it Hp. unfold transform_item. by rewrite Hp. }
  split; [apply Hgen|]. split; [by apply Hgen|].
  intros data. unfold transform_data.
  induction data as [|st data IH]; [reflexivity|].
  cbn [for_each]. rewrite IH. by rewrite (Hgen (after_extraction q) q).
Qed.

Lemma for_each_Forall2_iff {A B : Type} (body : A -> result B) (l : list A)
    (ys : list B) :
  for_each body l = Ok ys <-> Forall2 (fun x y => body x = Ok y) l ys.
Proof.
  split; [apply for_each_Forall2|].
  induction 1 as [|x y l ys Hxy _ IH]; [reflexivity|].
  cbn [for_each]. unfold mbind, result_bind. by rewrite Hxy, IH.
Qed.

Lemma for_each_first_failure {A B : Type} (body : A -> result B)
    (pre post : list A) (bad : A) (e : exn) :
  Forall (fun x => returned (body x) = true) pre ->
  body bad = Raise e ->
  for_each body (pre ++ bad :: post) = Raise e.
Proof.
  intros Hpre Hbad. induction Hpre as [|x pre Hx _ IH]; cbn [app for_each].
  - unfold mbind, result_bind. by rewrite Hbad.
  - unfold mbind, result_bind. destruct (body x); [|discriminate Hx].
    by rewrite IH.
Qed.

(** Property X13. [transform_data] returns one record per statement, in
    order, exactly when every statement transforms; otherwise it raises what
    the first failing statement raises and returns no record at all. *)
Theorem transform_data_all_or_nothing q (data : list RawStatement) :
  (forall records,
     transform_data q data = Ok records <->
     Forall2 (fun st r => transform_item q st = Ok r) data records) /\
  (forall records,
     transform_data q data = Ok records -> length records = length data) /\
  (forall pre bad post e,
     data = pre ++ bad :: post ->
     Forall (fun st => returned (transform_item q st) = true) pre ->
     transform_item q bad = Raise e ->
     transform_data q data = Raise e).
Proof.
  split; [|split].
  - intros records. apply for_each_Forall2_iff.
  - intros records Hr%for_each_Forall2. symmetry.
    exact (Forall2_length _ _ _ Hr).
  - intros pre bad post e -> Hpre Hbad.
    by apply for_each_first_failure.
Qed.

(** Property X14. A statement with no line items is transformed to a
    record exactly when its own three entries pass the validation of their
    fields, and every declared field of that record is unset; a statement
    whose line items are [None] (a JSON null) raises [TypeError]. *)
Theorem no_line_items q item :
  (st_financials item = List [] ->
   (statement_fields_accepted item = true <->
    exists r, transform_item q item = Ok r) /\
   (forall r, transform_item q item = Ok r ->
              forall field, field ∈ declared_fields ->
                            r !! field = Some None_)) /\
  (st_financials item = None_ -> transform_item q item = Raise TypeError).
Proof.
  split.
  - intros Hfin. split; [split|].
    + intros Hacc. unfold statement_fields_accepted in Hacc.
      apply andb_prop in Hacc as [Hacc H3]. apply andb_prop in Hacc as [H1 H2].
      apply bool_decide_eq_true_1 in H1, H2, H3.
      unfold transform_item. rewrite Hfin. cbn [iter line_items].
      unfold mbind, result_bind.
      apply (new_record_returns (keyword_arguments q item ∅)).
      intros field Hin.
      destruct (keyword_arguments_base q item ∅) as (E1 & E2 & E3).
      apply elem_of_app in Hin as [Hbase|Hdecl].
      * rewrite renamed_base by exact Hbase. unfold base_fields in Hbase.
        rewrite !elem_of_cons, elem_of_nil in Hbase.
        destruct Hbase as [->|[->|[->|[]]]].
        -- by rewrite E1.
        -- by rewrite E2.
        -- rewrite E3. destruct (_ && _); [by eexists|exact H3].
      * rewrite validate_declared by exact Hdecl.
        rewrite use_alias_none; [by eexists|].
        intros k Hk Hstands. exfalso.
        apply keyword_arguments_order in Hk as [Hk|Hk];
          [|by apply elem_of_nil in Hk].
        apply (declared_not_in_base field Hdecl). rewrite <- Hstands.
        by rewrite (proj2 (base_not_listed k Hk)).
    + intros [r Hr]. unfold statement_fields_accepted.
      destruct (record_statement_fields q item r Hr)
        as (Hdate & Hyear & _ & Hsome & Hsome' & Htoken).
      rewrite <- Hdate in Hsome. rewrite <- Hyear in Hsome'.
      by rewrite !bool_decide_eq_true_2.
    + intros r Hr field Hdecl.
      apply (record_field_absent q item r field [] Hr Hdecl);
        [by rewrite Hfin|constructor].
  - intros Hfin. unfold transform_item. by rewrite Hfin.
Qed.

Lemma line_item_error_any (sub_item : val) (e : exn) acc acc' :
  line_item acc sub_item = Raise e -> line_item acc' sub_item = Raise e.
Proof.
  unfold line_item, mbind, result_bind.
  destruct (getitem sub_item "data_tag") as [d|]; [|done].
  destruct (getitem d "tag") as [name|]; [|done].
  destruct (getitem sub_item "value") as [value|]; [|done].
  destruct (coerce value) as [x|]; [|done].
  by destruct name.
Qed.

Lemma line_items_first_failure pre post (sub_item : val) (e : exn) acc :
  returned (line_items pre acc) = true ->
  line_item (∅, false) sub_item = Raise e ->
  line_items (pre ++ sub_item :: post) acc = Raise e.
Proof.
  intros Hpre Hbad. rewrite line_items_app. unfold mbind, result_bind.
  destruct (line_items pre acc) as [acc1|]; [|discriminate Hpre].
  cbn [line_items]. by rewrite (line_item_error_any _ _ _ acc1 Hbad).
Qed.

(** Property X15. One line item that cannot be processed fails the whole
    statement: with the items before it in order, the statement raises what
    that item raises. A line item without a [value] key raises [KeyError],
    also when its tag is outside the standardized field set. *)
Theorem bad_line_item q item pre post (sub_item : val) (e : exn) :
  st_financials item = List (pre ++ sub_item :: post) ->
  returned (line_items pre (∅, false)) = true ->
  (line_item (∅, false) sub_item = Raise e ->
   transform_item q item = Raise e) /\
  (forall tag, item_tag sub_item = Some tag -> item_value sub_item = None ->
               (exists entries, sub_item = Dict entries) ->
               transform_item q item = Raise KeyError).
Proof.
  intros Hfin Hpre.
  assert (Hgen : forall e', line_item (∅, false) sub_item = Raise e' ->
                            transform_item q item = Raise e').
  { intros e' Hbad. unfold transform_item. rewrite Hfin. cbn [iter].
    unfold mbind, result_bind.
    by rewrite (line_items_first_failure pre post _ _ _ Hpre Hbad). }
  split; [apply Hgen|].
  intros tag (d & Hd & Ht)%item_tag_Some Hv [entries ->]. apply Hgen.
  unfold line_item, mbind, result_bind. rewrite Hd, Ht.
  unfold item_value in Hv. cbn [getitem] in *.
  destruct (assoc "value" entries); [discriminate|reflexivity].
Qed.
End TransformationEdges.


Lemma statement_fields_win_witness :
  exists r,
    transform_item (H := demo_runtime) (VL := demo_validation)
      demo_query demo_odd_statement = Ok r /\
    r !! "period_ending" = Some (Str "2022-03-31") /\
    r !! "fiscal_year" = Some None_.
Proof.
  name_record (transform_item (H := demo_runtime) (VL := demo_validation)
                 demo_query demo_odd_statement).
  destruct (statement_fields_win (H := demo_runtime) (VL := demo_validation)
              demo_query demo_odd_statement r Hr)
    as (Hdate & _ & _ & _ & Hyear & _).
  split; [exact Hdate|exact Hyear].
Defined.

(** A statement whose period end date is zero is transformed to no
    record. *)
Example undated_statement_refused :
  transform_item (H := demo_runtime) (VL := demo_validation)
    demo_query demo_undated_statement = Raise ValidationError.
Proof. vm_compute. reflexivity. Qed.

Lemma fiscal_period_of_record_witness :
  exists r,
    transform_item (H := demo_runtime) (VL := demo_validation) demo_quarterly demo_odd_statement
      = Ok r /\
    r !! "fiscal_period" = Some (Str "Q1").
Proof.
  name_record (transform_item (H := demo_runtime) (VL := demo_validation) demo_quarterly
                 demo_odd_statement).
  apply (proj2 (fiscal_period_of_record (H := demo_runtime) (VL := demo_validation) demo_quarterly
                  demo_odd_statement r Hr) "Q1"); [reflexivity|discriminate].
Defined.

Lemma transform_item_reads_period_witness :
  transform_item (H := demo_runtime) (VL := demo_validation) demo_query demo_statement =
  transform_item (H := demo_runtime) (VL := demo_validation) demo_query_2007 demo_statement.
Proof.
  exact (proj1 (transform_item_reads_period (H := demo_runtime) (VL := demo_validation) demo_query
                  demo_query_2007 demo_statement) eq_refl).
Defined.

Lemma transform_data_all_or_nothing_witness :
  transform_data (H := demo_runtime) (VL := demo_validation) demo_query
    [demo_statement; with_financials demo_statement None_; demo_odd_statement]
  = Raise TypeError.
Proof.
  apply (proj2 (proj2 (transform_data_all_or_nothing (H := demo_runtime) (VL := demo_validation)
                         demo_query _))
           [demo_statement] (with_financials demo_statement None_)
           [demo_odd_statement] TypeError).
  - reflexivity.
  - constructor; [vm_compute; reflexivity|constructor].
  - reflexivity.
Defined.

Lemma no_line_items_witness :
  exists r,
    transform_item (H := demo_runtime) (VL := demo_validation) demo_query
      (with_financials demo_statement (List [])) = Ok r /\
    r !! "total_assets" = Some None_.
Proof.
  destruct (proj1 (no_line_items (H := demo_runtime) (VL := demo_validation)
                     demo_query (with_financials demo_statement (List [])))
              eq_refl) as [Hiff Hfields].
  destruct (proj1 Hiff) as [r Hr]; [vm_compute; reflexivity|].
  exists r. split; [exact Hr|]. apply (Hfields r Hr).
  refine (bool_decide_unpack _ _). vm_compute. exact I.
Defined.

Lemma bad_line_item_witness :
  transform_item (H := demo_runtime) (VL := demo_validation) demo_query
    (with_financials demo_statement
       (List (demo_items_2022 ++ demo_item_no_value :: [])))
  = Raise KeyError.
Proof.
  apply (proj2 (bad_line_item (H := demo_runtime) (VL := demo_validation) demo_query
                  (with_financials demo_statement
                     (List (demo_items_2022 ++ demo_item_no_value :: [])))
                  demo_items_2022 [] demo_item_no_value KeyError
                  eq_refl ltac:(vm_compute; reflexivity))
           "vendoronlytag"); [reflexivity|reflexivity|].
  by eexists.
Defined.

Section StrayTags.
Context `{Runtime} {VL : Validation}.

Lemma line_item_flag acc acc' (sub_item : val) :
  line_item acc sub_item = Ok acc' -> snd acc = true -> snd acc' = true.
Proof.
  unfold line_item, mbind, result_bind.
  destruct (getitem sub_item "data_tag") as [d|]; [|discriminate].
  destruct (getitem d "tag") as [name|]; [|discriminate].
  destruct (getitem sub_item "value") as [value|]; [|discriminate].
  destruct (coerce value) as [x|]; [|discriminate].
  destruct name; try discriminate; by intros [= <-].
Qed.

Lemma line_items_flag (items : list val) : forall acc acc',
  line_items items acc = Ok acc' -> snd acc = true -> snd acc' = true.
Proof.
  induction items as [|sub_item items IH]; intros acc acc'; cbn [line_items].
  - by intros [= <-].
  - unfold mbind, result_bind.
    destruct (line_item acc sub_item) as [acc1|] eqn:E1; [|discriminate].
    intros Hrest Hflag. apply (IH _ _ Hrest).
    exact (line_item_flag _ _ _ E1 Hflag).
Qed.

Lemma line_item_stray acc acc' (sub_item tag : val) :
  getitem sub_item "data_tag" ≫= (fun d => getitem d "tag") = Ok tag ->
  (forall name, tag <> Str name) ->
  line_item acc sub_item = Ok acc' -> snd acc' = true.
Proof.
  unfold line_item, mbind, result_bind.
  destruct (getitem sub_item "data_tag") as [d|]; [|discriminate].
  intros Ht Hnot. rewrite Ht.
  destruct (getitem sub_item "value") as [value|]; [|discriminate].
  destruct (coerce value) as [x|]; [|discriminate].
  destruct tag; try discriminate; try (by intros [= <-]).
  by destruct (Hnot s).
Qed.

(** Property X16. A statement with a line item whose tag is not a string
    never yields a record; when every line item is otherwise processed, what
    it raises is [TypeError]. *)
Theorem non_string_tag q item pre post (sub_item tag : val) :
  st_financials item = List (pre ++ sub_item :: post) ->
  getitem sub_item "data_tag" ≫= (fun d => getitem d "tag") = Ok tag ->
  (forall name, tag <> Str name) ->
  (forall r, transform_item q item <> Ok r) /\
  (returned (line_items (pre ++ sub_item :: post) (∅, false)) = true ->
   transform_item q item = Raise TypeError).
Proof.
  intros Hfin Ht Hnot.
  assert (Hflag : forall acc, line_items (pre ++ sub_item :: post) (∅, false)
                              = Ok acc -> snd acc = true).
  { intros acc. rewrite line_items_app. unfold mbind, result_bind.
    destruct (line_items pre (∅, false)) as [acc1|]; [|discriminate].
    cbn [line_items]. unfold mbind, result_bind.
    destruct (line_item acc1 sub_item) as [acc2|] eqn:E2; [|discriminate].
    intros Hrest. apply (line_items_flag _ _ _ Hrest).
    exact (line_item_stray _ _ _ _ Ht Hnot E2). }
  unfold transform_item. rewrite Hfin. cbn [iter]. unfold mbind, result_bind.
  destruct (line_items (pre ++ sub_item :: post) (∅, false))
    as [[d stray]|e] eqn:E.
  - specialize (Hflag _ eq_refl). cbn in Hflag. subst stray.
    split; [discriminate|reflexivity].
  - split; [discriminate|discriminate].
Qed.
End StrayTags.

Lemma non_string_tag_witness :
  transform_item (H := demo_runtime) (VL := demo_validation) demo_query
    (with_financials demo_statement
       (List (demo_items_2022 ++ demo_item_numeric_tag :: [])))
  = Raise TypeError.
Proof.
  apply (proj2 (non_string_tag (H := demo_runtime) (VL := demo_validation) demo_query
                  (with_financials demo_statement
                     (List (demo_items_2022 ++ demo_item_numeric_tag :: [])))
                  demo_items_2022 [] demo_item_numeric_tag (Int 7)
                  eq_refl eq_refl ltac:(discriminate))).
  vm_compute. reflexivity.
Defined.

(* ===================================================================== *)
(** ** Extraction: failures, empty listings, limits, repetition *)
(* ===================================================================== *)

Section ExtractionEdges.
Context `{Runtime} {VL : Validation}.
Variable vendor : string -> option val.

Lemma after_extraction_idempotent (q : QueryParams) :
  after_extraction (after_extraction q) = after_extraction q /\
  floor_warnings (after_extraction q) = [].
Proof.
  destruct q as [sy pe [y|] li]; [|by split].
  unfold after_extraction, floor_warnings, effective_year.
  cbn [fiscal_year symbol period limit fmap option_fmap option_map].
  destruct (Z.ltb_spec y 2008) as [Hlt|Hge].
  - by split.
  - destruct (Z.ltb_spec y 2008); [lia|]. by split.
Qed.

(** Property X17. When the listing request is not answered, or its answer is
    not a well-formed listing, extraction raises at once: the listing
    request is the only request sent. A listing that is not an object raises
    [AttributeError]; one whose [fundamentals] entry is a JSON null raises
    [TypeError]. *)
Theorem listing_failure credentials w :
  let q := after_extraction (query w) in
  let url := listing_url q (api_key_of credentials) in
  let w1 := {| query := q;
               warnings := warnings w ++ floor_warnings (query w);
               requests := requests w ++ [url] |} in
  (vendor url = None ->
   aextract_data vendor credentials w = (Raise RequestError, w1)) /\
  (forall body e,
     vendor url = Some body -> fiscal_periods_of body = Raise e ->
     aextract_data vendor credentials w = (Raise e, w1)) /\
  (forall body,
     (forall entries, body <> Dict entries) ->
     fiscal_periods_of body = Raise AttributeError) /\
  (forall entries,
     assoc "fundamentals" entries = Some None_ ->
     fiscal_periods_of (Dict entries) = Raise TypeError).
Proof.
  cbv zeta. split; [|split; [|split]].
  - intros Hv. rewrite aextract_data_run. cbv zeta. by rewrite Hv.
  - intros body e Hv He. rewrite aextract_data_run. cbv zeta.
    by rewrite Hv, He.
  - intros body Hnot. destruct body; try reflexivity. by destruct (Hnot d).
  - intros entries He. unfold fiscal_periods_of, mbind, result_bind.
    cbn [get]. by rewrite He.
Qed.

(** Property X18. A listing without the key [fundamentals], or with an empty
    list under it, gives an empty result: extraction returns no statement,
    the whole fetch returns no record, and no per-period request is sent. *)
Theorem empty_listing credentials w (entries : list (string * val)) :
  let q := after_extraction (query w) in
  let url := listing_url q (api_key_of credentials) in
  let w1 := {| query := q;
               warnings := warnings w ++ floor_warnings (query w);
               requests := requests w ++ [url] |} in
  vendor url = Some (Dict entries) ->
  assoc "fundamentals" entries = None \/
  assoc "fundamentals" entries = Some (List []) ->
  aextract_data vendor credentials w = (Ok [], w1) /\
  extract_and_transform vendor credentials w = (Ok [], w1).
Proof.
  cbv zeta. intros Hv Hempty.
  assert (Hp : fiscal_periods_of (Dict entries) = Ok []).
  { unfold fiscal_periods_of, mbind, result_bind. cbn [get].
    by destruct Hempty as [-> | ->]. }
  assert (Hrun : aextract_data vendor credentials w =
                 (Ok [],
                  {| query := after_extraction (query w);
                     warnings := warnings w ++ floor_warnings (query w);
                     requests := requests w ++
                       [listing_url (after_extraction (query w))
                          (api_key_of credentials)] |})).
  { rewrite aextract_data_run. cbv zeta. rewrite Hv, Hp.
    unfold slice_to. destruct (0 <=? _); rewrite take_nil; cbn;
      by rewrite app_nil_r. }
  split; [exact Hrun|].
  unfold extract_and_transform, mbind, M_bind. rewrite Hrun. reflexivity.
Qed.

(** Property X19. The limit is a slice bound, with the meaning a slice gives
    it: a limit of zero retains no period, and a negative limit does not: it
    drops that many periods from the end of the listing and requests the
    rest. *)
Theorem limit_is_a_slice credentials w body (periods : list string) :
  let q := after_extraction (query w) in
  let key := api_key_of credentials in
  vendor (listing_url q key) = Some body ->
  fiscal_periods_of body = Ok periods ->
  let sent := requests (snd (aextract_data vendor credentials w)) in
  (limit (query w) = 0 ->
   sent = requests w ++ [listing_url q key] /\
   fst (aextract_data vendor credentials w) = Ok []) /\
  (limit (query w) < 0 ->
   sent = requests w ++ listing_url q key ::
            (period_url q key <$>
               take (length periods - Z.to_nat (- limit (query w))) periods)).
Proof.
  cbv zeta. intros Hv Hp. rewrite aextract_data_run. cbv zeta.
  rewrite Hv, Hp. cbn [fst snd requests warnings after_extraction limit].
  split.
  - intros ->. unfold slice_to. cbn. by rewrite app_nil_r.
  - intros Hneg. unfold slice_to.
    destruct (Z.leb_spec 0 (limit (query w))); [lia|].
    assert (Hn : Z.to_nat (Z.of_nat (length periods) + limit (query w)) =
                 (length periods - Z.to_nat (- limit (query w)))%nat) by lia.
    rewrite Hn. by rewrite <- app_assoc.
Qed.

(** Property X20. Extraction clamps the query object itself, so running it
    again on the same object warns no second time: the second run sends the
    same requests, has the same outcome, and leaves the query and the
    warnings as the first run left them. A run adds at most one warning. *)
Theorem extraction_twice credentials w :
  let first := aextract_data vendor credentials w in
  let second := aextract_data vendor credentials (snd first) in
  fst second = fst first /\
  query (snd second) = query (snd first) /\
  warnings (snd second) = warnings (snd first) /\
  (length (warnings (snd first)) <= S (length (warnings w)))%nat /\
  exists sent,
    requests (snd first) = requests w ++ sent /\
    requests (snd second) = requests (snd first) ++ sent.
Proof.
  cbv zeta.
  destruct (after_extraction_idempotent (query w)) as [Hidem Hquiet].
  assert (Hlen : (length (warnings w ++ floor_warnings (query w))
                  <= S (length (warnings w)))%nat).
  { rewrite length_app. unfold floor_warnings.
    destruct (fiscal_year (query w)) as [y|]; [destruct (y <? 2008)|];
      cbn; lia. }
  destruct (aextract_data vendor credentials w) as [r1 w1] eqn:E1.
  rewrite aextract_data_run in E1. cbv zeta in E1.
  destruct (match vendor _ with Some body => fiscal_periods_of body | None => _ end)
    as [periods|e] eqn:E; injection E1 as <- <-;
    rewrite aextract_data_run; cbv zeta;
    cbn [fst snd query warnings requests]; rewrite Hidem, Hquiet, E, app_nil_r;
    cbn [fst snd query warnings requests].
  - repeat split; [exact Hlen|].
    eexists. split; [by rewrite <- app_assoc|]. by rewrite <- !app_assoc.
  - repeat split; [exact Hlen|]. by eexists.
Qed.
End ExtractionEdges.

Lemma listing_failure_witness :
  fst (aextract_data (H := demo_runtime) (fun _ => None) None
         (fresh demo_query)) = Raise RequestError /\
  fst (aextract_data (H := demo_runtime) (fun _ => Some (List [])) None
         (fresh demo_query)) = Raise AttributeError.
Proof.
  split.
  - exact (f_equal fst
             (proj1 (listing_failure (H := demo_runtime) (fun _ => None) None
                       (fresh demo_query)) eq_refl)).
  - exact (f_equal fst
             (proj1 (proj2 (listing_failure (H := demo_runtime)
                              (fun _ => Some (List [])) None
                              (fresh demo_query)))
                (List []) AttributeError eq_refl eq_refl)).
Defined.

Lemma empty_listing_witness :
  fst (extract_and_transform (H := demo_runtime) (VL := demo_validation)
         (fun _ => Some (Dict [("next_page", None_)])) None (fresh demo_query))
  = Ok [].
Proof.
  exact (f_equal fst
           (proj2 (empty_listing (H := demo_runtime) (VL := demo_validation)
                     (fun _ => Some (Dict [("next_page", None_)])) None
                     (fresh demo_query) [("next_page", None_)]
                     eq_refl (or_introl eq_refl)))).
Defined.

Lemma limit_is_a_slice_witness :
  requests (snd (aextract_data (H := demo_runtime) demo_vendor None
                   (fresh {| symbol := "BRK.B"; period := "FY";
                             fiscal_year := None; limit := -1 |}))) =
  ["https://api-v2.intrinio.com/companies/BRK.B/fundamentals?statement_code=balance_sheet_statement&type=FY&api_key=";
   "https://api-v2.intrinio.com/fundamentals/BRK.B-balance_sheet_statement-2022-FY/standardized_financials?api_key=";
   "https://api-v2.intrinio.com/fundamentals/BRK.B-balance_sheet_statement-2021-FY/standardized_financials?api_key="].
Proof.
  exact (proj2 (limit_is_a_slice (H := demo_runtime) demo_vendor None
                  (fresh {| symbol := "BRK.B"; period := "FY";
                            fiscal_year := None; limit := -1 |})
                  (Dict [("fundamentals",
                          List [descriptor 2022 "FY"; descriptor 2021 "FY";
                                descriptor 2020 "FY"])])
                  ["2022-FY"; "2021-FY"; "2020-FY"] eq_refl eq_refl)
           ltac:(vm_compute; reflexivity)).
Defined.
